(** * The hls_helloworld host application of oc-accel

    A shallow embedding of [actions/hls_helloworld/sw/ocaccel_helloworld.c]:
    the job preparation routine and [main], written in a small writer/state
    monad whose trace records every call the program makes to its
    collaborators (libocaccel, the file helpers, stdio).  The collaborators'
    answers come from a [world] record, the constants of the headers the
    program includes come from a [Headers] class. *)

From Stdlib Require Import ZArith String List Bool Lia.
From Stdlib Require Strings.Byte.
From stdpp Require Import base list.

Local Open Scope string_scope.
Local Open Scope list_scope.
Local Open Scope Z_scope.

Abbreviation byte := Byte.byte.

(** ** Constants of the included headers *)

(** Address types.  The program's own [mem_tab] names them in encoding order:
    [{ "HOST_DRAM", "CARD_DRAM", "TYPE_NVME" }], indexed by the type. *)
Inductive ocaccel_addrtype :=
| OCACCEL_ADDRTYPE_HOST_DRAM
| OCACCEL_ADDRTYPE_CARD_DRAM
| OCACCEL_ADDRTYPE_NVME.

Definition addrtype_eqb (a b : ocaccel_addrtype) : bool :=
  match a, b with
  | OCACCEL_ADDRTYPE_HOST_DRAM, OCACCEL_ADDRTYPE_HOST_DRAM
  | OCACCEL_ADDRTYPE_CARD_DRAM, OCACCEL_ADDRTYPE_CARD_DRAM
  | OCACCEL_ADDRTYPE_NVME, OCACCEL_ADDRTYPE_NVME => true
  | _, _ => false
  end.

Definition mem_tab (t : ocaccel_addrtype) : string :=
  match t with
  | OCACCEL_ADDRTYPE_HOST_DRAM => "HOST_DRAM"
  | OCACCEL_ADDRTYPE_CARD_DRAM => "CARD_DRAM"
  | OCACCEL_ADDRTYPE_NVME => "TYPE_NVME"
  end.

(** The macros and sizes that [libocaccel.h], [ocaccel_tools.h] and
    [action_changecase.h] define and that decide what the program does.
    Their values are not fixed by this file; every result below holds for
    whatever values they have, under the hypotheses it states.  (The
    constants that are only passed on to the library, such as the vendor
    and device identifiers and ACTION_TYPE, are not recorded.) *)
Class Headers := {
  OCACCEL_JOBSIZE : Z;
  sizeof_helloworld_job : Z;
  OCACCEL_ADDRFLAG_ADDR : Z;
  OCACCEL_ADDRFLAG_SRC : Z;
  OCACCEL_ADDRFLAG_DST : Z;
  OCACCEL_ADDRFLAG_END : Z;
  OCACCEL_ACTION_DONE_IRQ : Z;
  OCACCEL_RETC_SUCCESS : Z;
  EX_ERR_VERIFY : Z
}.

(** [stdlib.h] *)
Definition EXIT_SUCCESS : Z := 0.
Definition EXIT_FAILURE : Z := 1.

(** ** Machine integers *)

Definition u32 (z : Z) : Z := z mod 2 ^ 32.
Definition u64 (z : Z) : Z := z mod 2 ^ 64.
Definition s32 (z : Z) : Z := (z + 2 ^ 31) mod 2 ^ 32 - 2 ^ 31.
Definition s64 (z : Z) : Z := (z + 2 ^ 63) mod 2 ^ 64 - 2 ^ 63.

(** ** Data *)

(** Modelled from the spec: [struct ocaccel_addr] is declared in
    [libocaccel.h]; an address descriptor holds the location, the length,
    the memory space and the role flags of one region. *)
Record ocaccel_addr := mkAddr {
  addr : Z;
  addr_size : Z;
  addr_type : ocaccel_addrtype;
  flags : Z
}.

(** [struct helloworld_job] ([action_changecase.h]): the two descriptors the
    program fills, [mjob->in] and [mjob->out]. *)
Record helloworld_job := mkJob {
  job_in : ocaccel_addr;
  job_out : ocaccel_addr
}.

(** Modelled from the spec: [struct ocaccel_job] is declared in
    [libocaccel.h]; it carries the return code the accelerator writes and
    the input and output windows handed to [ocaccel_job_set]. *)
Record ocaccel_job := mkCJob {
  retc : Z;
  win_addr : helloworld_job;
  win_size : Z;
  wout_addr : Z;
  wout_size : Z
}.

(** A block of host memory returned by [ocaccel_malloc]. *)
Record block := mkBlock {
  base : Z;
  bytes : list byte
}.

Definition zero_addr : ocaccel_addr := mkAddr 0 0 OCACCEL_ADDRTYPE_HOST_DRAM 0.
Definition zero_job : helloworld_job := mkJob zero_addr zero_addr.

(** ** Output of the program *)

Inductive stream := stdout | stderr.

(** Every message [main] and [ocaccel_prepare_helloworld] print, with its
    format string in [format]; the arguments of the formats are not
    tracked. *)
Inductive message :=
| Msg_usage | Msg_version
| Msg_prepare
| Msg_reading | Msg_parameters | Msg_writing
| Err_open_card | Hint_fpga_mode | Hint_cpu_mode | Hint_find_card
| Err_attach | Err_execution
| Msg_SUCCESS | Msg_FAILED | Err_retc
| Err_trailing | Warn_verify
| Msg_took.

Definition format (m : message) : string :=
  match m with
  | Msg_usage => "Usage: %s [-h] [-v, --verbose] [-V, --version]\n"
  | Msg_version => "%s\n"
  | Msg_prepare => "  prepare helloworld job of %ld bytes size\n"
  | Msg_reading => "reading input data %d bytes from %s\n"
  | Msg_parameters => "PARAMETERS:\n"
  | Msg_writing => "writing output data %p %d bytes to %s\n"
  | Err_open_card => "err: failed to open card %u: %s\n"
  | Hint_fpga_mode => "Default mode is FPGA mode.\n"
  | Hint_cpu_mode =>
      "Did you want to run CPU mode ? => add OCACCEL_CONFIG=CPU before your command.\n"
  | Hint_find_card =>
      "Otherwise make sure you ran ocaccel_find_card and ocaccel_maint for your selected card.\n"
  | Err_attach => "err: failed to attach action %u: %s\n"
  | Err_execution => "err: job execution %d: %s!\n"
  | Msg_SUCCESS => "SUCCESS\n"
  | Msg_FAILED => "FAILED\n"
  | Err_retc => "err: Unexpected RETC=%x!\n"
  | Err_trailing => "err: trailing zero verification failed!\n"
  | Warn_verify => "warn: Verification works currently only with HOST_DRAM\n"
  | Msg_took => "OCACCEL helloworld took %lld usec\n"
  end.

(** The calls the program makes to its collaborators, in the order it makes
    them, each with the answer it got. *)
Inductive event :=
| Fprintf (st : stream) (m : message)
| Hexdump (st : stream) (p : Z) (n : Z)
| FileSize (file : string) (result : Z)
| FileRead (file : string) (p : Z) (n : Z) (result : Z)
| FileWrite (file : string) (data : list byte) (result : Z)
| OcaccelMalloc (n : Z) (result : Z)
| CardAllocDev (device : string) (card_no : Z) (result : Z)
| AttachAction (card : Z) (irq : Z) (result : Z)
| AssignIrq (action : Z)
| Gettimeofday
| SyncExecuteJob (action : Z) (job : ocaccel_job) (timeout : Z)
    (result : Z) (retc_after : Z)
| MemcmpInOut (ibuff obuff : Z) (n : Z) (result : option Z)
| MemcmpTrailing (p : Z) (n : Z) (result : option Z)
| DetachAction (action : Z)
| CardFree (card : Z)
| Free (p : Z).

(** How a run ends: [exit(status)], the [abort] of a failed [assert], or a
    fault (an access through a null or out-of-range pointer, which C leaves
    undefined). *)
Inductive outcome :=
| Exit (status : Z)
| Abort
| Fault.

(** ** The command line, as [getopt_long] hands it to the loop *)

Inductive cli_option :=
| Opt_C (cardno : Z)          (* strtol(optarg) *)
| Opt_i (file : string)
| Opt_o (file : string)
| Opt_A (space : string)
| Opt_a (address : Z)         (* strtol(optarg) *)
| Opt_D (space : string)
| Opt_d (address : Z)         (* strtol(optarg) *)
| Opt_s (bytes : Z)           (* __str_to_num(optarg) *)
| Opt_t (seconds : Z)         (* strtol(optarg) *)
| Opt_X
| Opt_N
| Opt_V
| Opt_v
| Opt_h
| Opt_unknown.                (* '?' and anything else *)

Record command_line := mkCmd {
  argc : Z;
  options : list cli_option;   (* the successive results of getopt_long *)
  operands : Z                 (* argc - optind once getopt_long returns -1 *)
}.

(** ** The collaborators' answers during one run *)

Record world := mkWorld {
  file_size : string -> Z;              (* __file_size *)
  file_bytes : string -> list byte;     (* what __file_read copies in *)
  file_read_rc : Z;                     (* __file_read *)
  ibuff_addr : Z;                       (* first ocaccel_malloc, 0 is NULL *)
  obuff_addr : Z;                       (* second ocaccel_malloc, 0 is NULL *)
  heap_fill : byte;                     (* content of fresh memory *)
  card_handle : Z;                      (* ocaccel_card_alloc_dev, 0 is NULL *)
  action_handle : Z;                    (* ocaccel_attach_action, 0 is NULL *)
  job_rc : Z;                           (* ocaccel_action_sync_execute_job *)
  job_retc : Z;                         (* cjob.retc after the job *)
  job_stores : list (nat * byte);       (* bytes the action stores, by offset
                                           into the destination buffer *)
  file_write_rc : Z                     (* __file_write *)
}.

(** ** Local variables of [main] *)

(** [verbose_flag] is the one global of the file; it is kept with the
    locals. *)
Record locals := mkLocals {
  rc : Z;
  card_no : Z;
  card : Z;
  action : Z;
  input : option string;
  output : option string;
  timeout : Z;
  size : Z;
  ibuff : option block;
  obuff : option block;
  type_in : ocaccel_addrtype;
  addr_in : Z;
  type_out : ocaccel_addrtype;
  addr_out : Z;
  verify : Z;
  exit_code : Z;
  action_irq : Z;
  verbose_flag : Z;
  cjob : ocaccel_job;
  mjob : helloworld_job
}.

Definition set_rc (v : Z) (s : locals) : locals :=
  mkLocals v (card_no s) (card s) (action s) (input s) (output s)
    (timeout s) (size s) (ibuff s) (obuff s) (type_in s) (addr_in s)
    (type_out s) (addr_out s) (verify s) (exit_code s) (action_irq s)
    (verbose_flag s) (cjob s) (mjob s).

Definition set_card_no (v : Z) (s : locals) : locals :=
  mkLocals (rc s) v (card s) (action s) (input s) (output s) (timeout s)
    (size s) (ibuff s) (obuff s) (type_in s) (addr_in s) (type_out s)
    (addr_out s) (verify s) (exit_code s) (action_irq s) (verbose_flag s)
    (cjob s) (mjob s).

Definition set_card (v : Z) (s : locals) : locals :=
  mkLocals (rc s) (card_no s) v (action s) (input s) (output s) (timeout s)
    (size s) (ibuff s) (obuff s) (type_in s) (addr_in s) (type_out s)
    (addr_out s) (verify s) (exit_code s) (action_irq s) (verbose_flag s)
    (cjob s) (mjob s).

Definition set_action (v : Z) (s : locals) : locals :=
  mkLocals (rc s) (card_no s) (card s) v (input s) (output s) (timeout s)
    (size s) (ibuff s) (obuff s) (type_in s) (addr_in s) (type_out s)
    (addr_out s) (verify s) (exit_code s) (action_irq s) (verbose_flag s)
    (cjob s) (mjob s).

Definition set_input (v : option string) (s : locals) : locals :=
  mkLocals (rc s) (card_no s) (card s) (action s) v (output s) (timeout s)
    (size s) (ibuff s) (obuff s) (type_in s) (addr_in s) (type_out s)
    (addr_out s) (verify s) (exit_code s) (action_irq s) (verbose_flag s)
    (cjob s) (mjob s).

Definition set_output (v : option string) (s : locals) : locals :=
  mkLocals (rc s) (card_no s) (card s) (action s) (input s) v (timeout s)
    (size s) (ibuff s) (obuff s) (type_in s) (addr_in s) (type_out s)
    (addr_out s) (verify s) (exit_code s) (action_irq s) (verbose_flag s)
    (cjob s) (mjob s).

Definition set_timeout (v : Z) (s : locals) : locals :=
  mkLocals (rc s) (card_no s) (card s) (action s) (input s) (output s) v
    (size s) (ibuff s) (obuff s) (type_in s) (addr_in s) (type_out s)
    (addr_out s) (verify s) (exit_code s) (action_irq s) (verbose_flag s)
    (cjob s) (mjob s).

Definition set_size (v : Z) (s : locals) : locals :=
  mkLocals (rc s) (card_no s) (card s) (action s) (input s) (output s)
    (timeout s) v (ibuff s) (obuff s) (type_in s) (addr_in s) (type_out s)
    (addr_out s) (verify s) (exit_code s) (action_irq s) (verbose_flag s)
    (cjob s) (mjob s).

Definition set_ibuff (v : option block) (s : locals) : locals :=
  mkLocals (rc s) (card_no s) (card s) (action s) (input s) (output s)
    (timeout s) (size s) v (obuff s) (type_in s) (addr_in s) (type_out s)
    (addr_out s) (verify s) (exit_code s) (action_irq s) (verbose_flag s)
    (cjob s) (mjob s).

Definition set_obuff (v : option block) (s : locals) : locals :=
  mkLocals (rc s) (card_no s) (card s) (action s) (input s) (output s)
    (timeout s) (size s) (ibuff s) v (type_in s) (addr_in s) (type_out s)
    (addr_out s) (verify s) (exit_code s) (action_irq s) (verbose_flag s)
    (cjob s) (mjob s).

Definition set_type_in (v : ocaccel_addrtype) (s : locals) : locals :=
  mkLocals (rc s) (card_no s) (card s) (action s) (input s) (output s)
    (timeout s) (size s) (ibuff s) (obuff s) v (addr_in s) (type_out s)
    (addr_out s) (verify s) (exit_code s) (action_irq s) (verbose_flag s)
    (cjob s) (mjob s).

Definition set_addr_in (v : Z) (s : locals) : locals :=
  mkLocals (rc s) (card_no s) (card s) (action s) (input s) (output s)
    (timeout s) (size s) (ibuff s) (obuff s) (type_in s) v (type_out s)
    (addr_out s) (verify s) (exit_code s) (action_irq s) (verbose_flag s)
    (cjob s) (mjob s).

Definition set_type_out (v : ocaccel_addrtype) (s : locals) : locals :=
  mkLocals (rc s) (card_no s) (card s) (action s) (input s) (output s)
    (timeout s) (size s) (ibuff s) (obuff s) (type_in s) (addr_in s) v
    (addr_out s) (verify s) (exit_code s) (action_irq s) (verbose_flag s)
    (cjob s) (mjob s).

Definition set_addr_out (v : Z) (s : locals) : locals :=
  mkLocals (rc s) (card_no s) (card s) (action s) (input s) (output s)
    (timeout s) (size s) (ibuff s) (obuff s) (type_in s) (addr_in s)
    (type_out s) v (verify s) (exit_code s) (action_irq s) (verbose_flag s)
    (cjob s) (mjob s).

Definition set_verify (v : Z) (s : locals) : locals :=
  mkLocals (rc s) (card_no s) (card s) (action s) (input s) (output s)
    (timeout s) (size s) (ibuff s) (obuff s) (type_in s) (addr_in s)
    (type_out s) (addr_out s) v (exit_code s) (action_irq s)
    (verbose_flag s) (cjob s) (mjob s).

Definition set_exit_code (v : Z) (s : locals) : locals :=
  mkLocals (rc s) (card_no s) (card s) (action s) (input s) (output s)
    (timeout s) (size s) (ibuff s) (obuff s) (type_in s) (addr_in s)
    (type_out s) (addr_out s) (verify s) v (action_irq s) (verbose_flag s)
    (cjob s) (mjob s).

Definition set_action_irq (v : Z) (s : locals) : locals :=
  mkLocals (rc s) (card_no s) (card s) (action s) (input s) (output s)
    (timeout s) (size s) (ibuff s) (obuff s) (type_in s) (addr_in s)
    (type_out s) (addr_out s) (verify s) (exit_code s) v (verbose_flag s)
    (cjob s) (mjob s).

Definition set_verbose_flag (v : Z) (s : locals) : locals :=
  mkLocals (rc s) (card_no s) (card s) (action s) (input s) (output s)
    (timeout s) (size s) (ibuff s) (obuff s) (type_in s) (addr_in s)
    (type_out s) (addr_out s) (verify s) (exit_code s) (action_irq s) v
    (cjob s) (mjob s).

Definition set_cjob (v : ocaccel_job) (s : locals) : locals :=
  mkLocals (rc s) (card_no s) (card s) (action s) (input s) (output s)
    (timeout s) (size s) (ibuff s) (obuff s) (type_in s) (addr_in s)
    (type_out s) (addr_out s) (verify s) (exit_code s) (action_irq s)
    (verbose_flag s) v (mjob s).

Definition set_mjob (v : helloworld_job) (s : locals) : locals :=
  mkLocals (rc s) (card_no s) (card s) (action s) (input s) (output s)
    (timeout s) (size s) (ibuff s) (obuff s) (type_in s) (addr_in s)
    (type_out s) (addr_out s) (verify s) (exit_code s) (action_irq s)
    (verbose_flag s) (cjob s) v.

(** [main] leaves [cjob] and [mjob] uninitialised; both are written before
    they are read, and start as zeros here. *)
Definition ocaccel_job_init : ocaccel_job := mkCJob 0 zero_job 0 0 0.

(** ** The monad: a trace of calls, the locals, and early termination *)

Inductive flow (A : Type) :=
| Next (a : A)
| Stop (o : outcome).
Arguments Next {A} a.
Arguments Stop {A} o.

Definition prog (A : Type) : Type := locals -> list event * locals * flow A.

Definition ret {A} (a : A) : prog A := fun s => ([], s, Next a).

Definition bind {A B} (m : prog A) (k : A -> prog B) : prog B :=
  fun s =>
    match m s with
    | (t, s', Next a) =>
        match k a s' with
        | (t', s'', r) => (t ++ t', s'', r)
        end
    | (t, s', Stop o) => (t, s', Stop o)
    end.

Declare Scope prog_scope.
Delimit Scope prog_scope with prog.
Bind Scope prog_scope with prog.
Notation "x <- m ;; k" := (bind m (fun x => k))
  (at level 100, m at next level, right associativity) : prog_scope.
Notation "m ;; k" := (bind m (fun _ => k))
  (at level 100, right associativity) : prog_scope.
Local Open Scope prog_scope.

Definition get : prog locals := fun s => ([], s, Next s).
Definition assign (f : locals -> locals) : prog unit := fun s => ([], f s, Next tt).
Definition call (e : event) : prog unit := fun s => ([e], s, Next tt).
Definition exit (status : Z) : prog unit := fun s => ([], s, Stop (Exit status)).
Definition abort : prog unit := fun s => ([], s, Stop Abort).
Definition fault : prog unit := fun s => ([], s, Stop Fault).
Definition when (b : bool) (m : prog unit) : prog unit := if b then m else ret tt.

Definition fprintf (st : stream) (m : message) : prog unit := call (Fprintf st m).

(** ** Memory *)

(** The value of a buffer pointer: [NULL] is 0. *)
Definition ptr (b : option block) : Z :=
  match b with
  | Some blk => base blk
  | None => 0
  end.

(** The bytes readable from [b + off]; none through [NULL] or out of the
    block. *)
Definition view (b : option block) (off : Z) : option (list byte) :=
  match b with
  | Some blk =>
      if (0 <=? off) && (off <=? Z.of_nat (length (bytes blk)))
      then Some (drop (Z.to_nat off) (bytes blk))
      else None
  | None => None
  end.

Fixpoint byte_cmp (x y : list byte) : Z :=
  match x, y with
  | a :: x', b :: y' =>
      if Byte.eqb a b then byte_cmp x' y'
      else Z.of_N (Byte.to_N a) - Z.of_N (Byte.to_N b)
  | _, _ => 0
  end.

(** [memcmp(a, b, n)]: defined when both regions hold [n] bytes. *)
Definition memcmp (a b : option (list byte)) (n : Z) : option Z :=
  match a, b with
  | Some x, Some y =>
      if (0 <=? n) && (n <=? Z.of_nat (length x)) && (n <=? Z.of_nat (length y))
      then Some (byte_cmp (take (Z.to_nat n) x) (take (Z.to_nat n) y))
      else None
  | _, _ => None
  end.

(** [memset(p, c, n)] on a block of at least [n] bytes. *)
Definition memset (blk : block) (c : byte) (n : Z) : block :=
  mkBlock (base blk) (replicate (Z.to_nat n) c ++ drop (Z.to_nat n) (bytes blk)).

(** Copying [data] over the start of a block, as [__file_read] does. *)
Definition overwrite (data : list byte) (blk : block) : block :=
  mkBlock (base blk)
    (take (length (bytes blk)) data ++ drop (length data) (bytes blk)).

(** The stores of the action into the destination buffer; a store outside
    the buffer leaves it unchanged. *)
Definition action_stores (stores : list (nat * byte)) (blk : block) : block :=
  mkBlock (base blk)
    (fold_left (fun l st => <[fst st := snd st]> l) stores (bytes blk)).

Definition trailing_zeros : list byte := replicate 1024 Byte.x00.

(** Modelled from the spec: [ocaccel_addr_set] is defined in [libocaccel.h];
    it is a pure value construction that records the region, its length,
    its memory space and its flags, and performs no I/O. *)
Definition ocaccel_addr_set (a : Z) (sz : Z) (ty : ocaccel_addrtype) (fl : Z)
  : ocaccel_addr :=
  mkAddr a sz ty fl.

(** Modelled from the spec: [ocaccel_job_set] is defined in [libocaccel.h];
    it records the input window and the output window of the job and leaves
    the return code to the accelerator. *)
Definition ocaccel_job_set (c : ocaccel_job) (win : helloworld_job) (wsz : Z)
    (wout : Z) (woutsz : Z) : ocaccel_job :=
  mkCJob (retc c) win wsz wout woutsz.

Definition set_retc (v : Z) (c : ocaccel_job) : ocaccel_job :=
  mkCJob v (win_addr c) (win_size c) (wout_addr c) (wout_size c).

(** ** The program *)

Section Program.
Context {hdr : Headers}.
Variable w : world.

Definition usage : prog unit := fprintf stdout Msg_usage.

(** [ocaccel_prepare_helloworld]: fills [mjob] and [cjob].  [size_in] and
    [size_out] are [uint32_t] parameters. *)
Definition ocaccel_prepare_helloworld
    (a_in : Z) (size_in : Z) (t_in : ocaccel_addrtype)
    (a_out : Z) (size_out : Z) (t_out : ocaccel_addrtype) : prog unit :=
  fprintf stderr Msg_prepare ;;
  (if sizeof_helloworld_job <=? OCACCEL_JOBSIZE then ret tt else abort) ;;
  assign (set_mjob zero_job) ;;
  assign (fun s => set_mjob
            (mkJob (ocaccel_addr_set a_in (u32 size_in) t_in
                      (Z.lor OCACCEL_ADDRFLAG_ADDR OCACCEL_ADDRFLAG_SRC))
                   (job_out (mjob s))) s) ;;
  assign (fun s => set_mjob
            (mkJob (job_in (mjob s))
                   (ocaccel_addr_set a_out (u32 size_out) t_out
                      (Z.lor (Z.lor OCACCEL_ADDRFLAG_ADDR OCACCEL_ADDRFLAG_DST)
                             OCACCEL_ADDRFLAG_END))) s) ;;
  assign (fun s => set_cjob
            (ocaccel_job_set (cjob s) (mjob s) sizeof_helloworld_job 0 0) s).

(** The [locals] as [main] initialises them. *)
Definition init : locals :=
  {| rc := 0; card_no := 0; card := 0; action := 0;
     input := None; output := None;
     timeout := 600; size := 1024 * 1024;
     ibuff := None; obuff := None;
     type_in := OCACCEL_ADDRTYPE_HOST_DRAM; addr_in := 0;
     type_out := OCACCEL_ADDRTYPE_HOST_DRAM; addr_out := 0;
     verify := 0; exit_code := EXIT_SUCCESS;
     action_irq := OCACCEL_ACTION_DONE_IRQ; verbose_flag := 0;
     cjob := ocaccel_job_init; mjob := zero_job |}.

(** The cleanup labels at the end of [main]; each falls through to the
    next, and a [goto] is a jump into this chain. *)
Definition out_error : prog unit :=
  s <- get ;;
  call (Free (ptr (obuff s))) ;;
  call (Free (ptr (ibuff s))) ;;
  exit EXIT_FAILURE.

Definition out_error1 : prog unit :=
  s <- get ;;
  call (CardFree (card s)) ;;
  out_error.

Definition out_error2 : prog unit :=
  s <- get ;;
  call (DetachAction (action s)) ;;
  out_error1.

(** One turn of the [switch (ch)] inside the option loop. *)
Definition getopt_case (ch : cli_option) : prog unit :=
  match ch with
  | Opt_C n => assign (set_card_no (s32 n))
  | Opt_i file => assign (set_input (Some file))
  | Opt_o file => assign (set_output (Some file))
  | Opt_A space =>
      if String.eqb space "CARD_DRAM"
      then assign (set_type_in OCACCEL_ADDRTYPE_CARD_DRAM)
      else if String.eqb space "HOST_DRAM"
      then assign (set_type_in OCACCEL_ADDRTYPE_HOST_DRAM)
      else (usage ;; exit EXIT_FAILURE)
  | Opt_a n => assign (set_addr_in (u64 n))
  | Opt_D space =>
      if String.eqb space "CARD_DRAM"
      then assign (set_type_out OCACCEL_ADDRTYPE_CARD_DRAM)
      else if String.eqb space "HOST_DRAM"
      then assign (set_type_out OCACCEL_ADDRTYPE_HOST_DRAM)
      else (usage ;; exit EXIT_FAILURE)
  | Opt_d n => assign (set_addr_out (u64 n))
  | Opt_s n => assign (set_size (s64 n))
  | Opt_t n => assign (set_timeout (u64 n))
  | Opt_X => assign (fun s => set_verify (verify s + 1) s)
  | Opt_N => assign (set_action_irq 0)
  | Opt_V => fprintf stdout Msg_version ;; exit EXIT_SUCCESS
  | Opt_v => assign (set_verbose_flag 1)
  | Opt_h => usage ;; exit EXIT_SUCCESS
  | Opt_unknown => usage ;; exit EXIT_FAILURE
  end.

Fixpoint getopt_loop (chs : list cli_option) : prog unit :=
  match chs with
  | [] => ret tt
  | ch :: rest => getopt_case ch ;; getopt_loop rest
  end.

Definition parse_command_line (cl : command_line) : prog unit :=
  getopt_loop (options cl) ;;
  when (negb (operands cl =? 0)) (usage ;; exit EXIT_FAILURE) ;;
  when (argc cl =? 1) (usage ;; exit EXIT_FAILURE).

(** [ocaccel_malloc(n)] answering the address [p]. *)
Definition ocaccel_malloc (p : Z) (n : Z) : prog (option block) :=
  call (OcaccelMalloc n p) ;;
  ret (if p =? 0 then None
       else Some (mkBlock p (replicate (Z.to_nat n) (heap_fill w)))).

(** [if (input != NULL) { ... }] *)
Definition load_input : prog unit :=
  s <- get ;;
  match input s with
  | None => ret tt
  | Some file =>
      call (FileSize file (file_size w file)) ;;
      assign (set_size (file_size w file)) ;;
      if file_size w file <? 0 then out_error else
      ib <- ocaccel_malloc (ibuff_addr w) (file_size w file) ;;
      assign (set_ibuff ib) ;;
      match ib with
      | None => out_error
      | Some blk =>
          assign (set_ibuff (Some (memset blk Byte.x00 (file_size w file)))) ;;
          fprintf stdout Msg_reading ;;
          call (FileRead file (base blk) (file_size w file) (file_read_rc w)) ;;
          assign (fun s => set_ibuff
                    (option_map (overwrite (file_bytes w file)) (ibuff s)) s) ;;
          assign (set_rc (file_read_rc w)) ;;
          if file_read_rc w <? 0 then out_error else
          assign (set_type_in OCACCEL_ADDRTYPE_HOST_DRAM) ;;
          assign (set_addr_in (base blk))
      end
  end.

(** [if (output != NULL) { ... }] *)
Definition alloc_output : prog unit :=
  s <- get ;;
  match output s with
  | None => ret tt
  | Some _ =>
      let set_size := u64 (size s + (if verify s =? 0 then 0 else 1024)) in
      ob <- ocaccel_malloc (obuff_addr w) set_size ;;
      assign (set_obuff ob) ;;
      match ob with
      | None => out_error
      | Some blk =>
          assign (set_obuff (Some (memset blk Byte.x00 set_size))) ;;
          assign (set_type_out OCACCEL_ADDRTYPE_HOST_DRAM) ;;
          assign (set_addr_out (base blk))
      end
  end.

(** The path that [snprintf] is given for the card: for a card other than
    0 the string is the format, and the number it is filled in with is
    [card_no], which the [CardAllocDev] event carries beside it. *)
Definition device_name (n : Z) : string :=
  if n =? 0 then "IBM,oc-accel"
  else "/dev/ocxl/IBM,oc-accel.000%d:00:00.1.0".

Definition open_card : prog unit :=
  s <- get ;;
  call (CardAllocDev (device_name (card_no s)) (card_no s) (card_handle w)) ;;
  assign (set_card (card_handle w)) ;;
  if card_handle w =? 0 then
    fprintf stderr Err_open_card ;;
    fprintf stderr Hint_fpga_mode ;;
    fprintf stderr Hint_cpu_mode ;;
    fprintf stderr Hint_find_card ;;
    out_error
  else ret tt.

Definition attach_action : prog unit :=
  s <- get ;;
  call (AttachAction (card s) (action_irq s) (action_handle w)) ;;
  assign (set_action (action_handle w)) ;;
  when (negb (action_irq s =? 0)) (call (AssignIrq (action_handle w))) ;;
  if action_handle w =? 0 then
    fprintf stderr Err_attach ;;
    out_error1
  else ret tt.

(** [ocaccel_action_sync_execute_job]: the action runs, stores into the
    destination buffer and leaves its return code in [cjob]. *)
Definition ocaccel_action_sync_execute_job : prog Z :=
  s <- get ;;
  call (SyncExecuteJob (action s) (cjob s) (timeout s) (job_rc w) (job_retc w)) ;;
  assign (set_obuff (option_map (action_stores (job_stores w)) (obuff s))) ;;
  assign (fun s => set_cjob (set_retc (job_retc w) (cjob s)) s) ;;
  ret (job_rc w).

Definition execute_job : prog unit :=
  s <- get ;;
  ocaccel_prepare_helloworld (addr_in s) (size s) (type_in s)
                             (addr_out s) (size s) (type_out s) ;;
  call Gettimeofday ;;
  r <- ocaccel_action_sync_execute_job ;;
  assign (set_rc r) ;;
  call Gettimeofday ;;
  if negb (r =? 0) then
    fprintf stderr Err_execution ;;
    out_error2
  else ret tt.

(** [if (output != NULL) { ... __file_write(output, obuff, size) ... }].
    The event holds the bytes the call reads when [size] is not negative;
    a negative [size] is passed as the length as it is, and the event of
    such a call holds no bytes. *)
Definition write_output : prog unit :=
  s <- get ;;
  match output s with
  | None => ret tt
  | Some file =>
      fprintf stdout Msg_writing ;;
      call (FileWrite file
              (take (Z.to_nat (size s))
                 (match obuff s with Some blk => bytes blk | None => [] end))
              (file_write_rc w)) ;;
      assign (set_rc (file_write_rc w)) ;;
      if file_write_rc w <? 0 then out_error2 else ret tt
  end.

Definition test_return_code : prog unit :=
  s <- get ;;
  (if retc (cjob s) =? OCACCEL_RETC_SUCCESS
   then fprintf stdout Msg_SUCCESS
   else fprintf stdout Msg_FAILED) ;;
  if negb (retc (cjob s) =? OCACCEL_RETC_SUCCESS) then
    fprintf stderr Err_retc ;;
    out_error2
  else ret tt.

(** [if (verify) { ... }] *)
Definition verify_result : prog unit :=
  s <- get ;;
  if verify s =? 0 then ret tt else
  if addrtype_eqb (type_in s) OCACCEL_ADDRTYPE_HOST_DRAM &&
     addrtype_eqb (type_out s) OCACCEL_ADDRTYPE_HOST_DRAM
  then
    let r := memcmp (view (ibuff s) 0) (view (obuff s) 0) (u64 (size s)) in
    call (MemcmpInOut (ptr (ibuff s)) (ptr (obuff s)) (u64 (size s)) r) ;;
    match r with
    | None => fault
    | Some r =>
        assign (set_rc r) ;;
        when (negb (r =? 0)) (assign (set_exit_code EX_ERR_VERIFY)) ;;
        let r' := memcmp (view (obuff s) (size s)) (Some trailing_zeros) 1024 in
        call (MemcmpTrailing (ptr (obuff s) + size s) 1024 r') ;;
        match r' with
        | None => fault
        | Some r' =>
            assign (set_rc r') ;;
            when (negb (r' =? 0))
              (fprintf stderr Err_trailing ;;
               call (Hexdump stderr (ptr (obuff s) + size s) 1024) ;;
               assign (set_exit_code EX_ERR_VERIFY))
        end
    end
  else fprintf stderr Warn_verify.

Definition teardown : prog unit :=
  fprintf stdout Msg_took ;;
  s <- get ;;
  call (DetachAction (action s)) ;;
  call (CardFree (card s)) ;;
  call (Free (ptr (obuff s))) ;;
  call (Free (ptr (ibuff s))) ;;
  exit (exit_code s).

(** What [main] does once the command line is parsed. *)
Definition main_body : prog unit :=
  load_input ;;
  alloc_output ;;
  fprintf stdout Msg_parameters ;;
  open_card ;;
  attach_action ;;
  execute_job ;;
  write_output ;;
  test_return_code ;;
  verify_result ;;
  teardown.

Definition main_prog (cl : command_line) : prog unit :=
  parse_command_line cl ;;
  main_body.

(** A run of a program from given locals: its trace, the final locals and
    how it ended.  Every path of [main] ends in [exit]; a [main] that ran off
    its end would return 0. *)
Definition run (p : prog unit) (s : locals) : list event * locals * outcome :=
  match p s with
  | (t, s', Stop o) => (t, s', o)
  | (t, s', Next _) => (t, s', Exit 0)
  end.

Definition main (cl : command_line) : list event * locals * outcome :=
  run (main_prog cl) init.

Definition trace_of (r : list event * locals * outcome) : list event := fst (fst r).
Definition locals_of (r : list event * locals * outcome) : locals := snd (fst r).
Definition outcome_of (r : list event * locals * outcome) : outcome := snd r.

End Program.

(** ** Observations on runs *)

(** The two calls that give resources back to the card. *)
Definition is_release (e : event) : bool :=
  match e with
  | DetachAction _ | CardFree _ => true
  | _ => false
  end.

(** A monitor over a trace: does [ocaccel_card_free] ever happen while an
    action is attached? *)
Fixpoint freed_while_attached (attached : bool) (t : list event) : bool :=
  match t with
  | [] => false
  | AttachAction _ _ a :: t' => freed_while_attached (negb (a =? 0)) t'
  | DetachAction _ :: t' => freed_while_attached false t'
  | CardFree _ :: t' => attached || freed_while_attached attached t'
  | _ :: t' => freed_while_attached attached t'
  end.

(** A descriptor's flags include the flag [f]. *)
Definition has_flag (d : ocaccel_addr) (f : Z) : bool := Z.land (flags d) f =? f.

Definition descriptors (j : helloworld_job) : list ocaccel_addr :=
  [job_in j; job_out j].

(** What the option loop can print. *)
Definition is_help (e : event) : bool :=
  match e with
  | Fprintf stdout Msg_usage | Fprintf stdout Msg_version => true
  | _ => false
  end.

Definition is_memcmp (e : event) : bool :=
  match e with
  | MemcmpInOut _ _ _ _ | MemcmpTrailing _ _ _ => true
  | _ => false
  end.



(** The locals the option loop never touches are as [main] initialised
    them. *)
Definition fresh (s : locals) : Prop :=
  exit_code s = EXIT_SUCCESS /\ ibuff s = None /\ obuff s = None.

(** An error diagnostic is a message that starts with [err: ]. *)
Definition is_diagnostic (m : message) : bool := String.prefix "err: " (format m).

Definition diagnosed (t : list event) : Prop :=
  exists m, In (Fprintf stderr m) t /\ is_diagnostic m = true.

Definition diagnostic_printed (t : list event) : bool :=
  existsb (fun e => match e with
                    | Fprintf stderr m => is_diagnostic m
                    | _ => false
                    end) t.

(** The run exits with the non-zero status [code] after printing the
    diagnostic [m] on the error stream. *)
Definition reported_failure (r : list event * locals * outcome)
    (code : Z) (m : message) : Prop :=
  outcome_of r = Exit code /\ code <> 0 /\
  In (Fprintf stderr m) (trace_of r) /\ is_diagnostic m = true.

(** The call got the answer that lets [main] go on. *)
Definition call_succeeded {hdr : Headers} (e : event) : bool :=
  match e with
  | FileSize _ r | FileRead _ _ _ r | FileWrite _ _ r => 0 <=? r
  | OcaccelMalloc _ p | CardAllocDev _ _ p | AttachAction _ _ p => negb (p =? 0)
  | SyncExecuteJob _ _ _ r rt => (r =? 0) && (rt =? OCACCEL_RETC_SUCCESS)
  | MemcmpInOut _ _ _ r | MemcmpTrailing _ _ r =>
      match r with
      | Some z => z =? 0
      | None => false
      end
  | _ => true
  end.

(** A construction (card), attach, execution or verification step that
    failed. *)
Definition step_failed (e : event) : bool :=
  match e with
  | CardAllocDev _ _ p | AttachAction _ _ p => p =? 0
  | SyncExecuteJob _ _ _ r _ => negb (r =? 0)
  | MemcmpInOut _ _ _ r | MemcmpTrailing _ _ r =>
      match r with
      | Some z => negb (z =? 0)
      | None => true
      end
  | _ => false
  end.

(** The 1024 bytes of a block that follow the first [size] ones. *)
Definition trailing_bytes (s : locals) (blk : block) : list byte :=
  take 1024 (drop (Z.to_nat (size s)) (bytes blk)).

(** The failure half of the exit-behaviour sentence, read on one run: a
    failed step means a non-zero exit status and a diagnostic on the error
    stream. *)
Definition failure_is_diagnosed (r : list event * locals * outcome) : Prop :=
  existsb step_failed (trace_of r) = true ->
  (exists c, outcome_of r = Exit c /\ c <> 0) /\ diagnosed (trace_of r).

(** The verification sentence, read on one run that got as far as the
    verification step: with [-X] and an output file the output buffer has
    [size + 1024] bytes, the trailing bytes are compared with zeros, and a
    nonzero one is reported and changes the exit status. *)
Definition trailing_check_always {hdr : Headers}
    (r : list event * locals * outcome) : Prop :=
  let s := locals_of r in
  verify s <> 0 -> output s <> None ->
  In (Fprintf stdout Msg_SUCCESS) (trace_of r) ->
  forall blk, obuff s = Some blk ->
    Z.of_nat (length (bytes blk)) = size s + 1024 /\
    (exists p res, In (MemcmpTrailing p 1024 res) (trace_of r)) /\
    ((exists b, In b (trailing_bytes s blk) /\ b <> Byte.x00) ->
       In (Fprintf stderr Err_trailing) (trace_of r) /\
       outcome_of r = Exit EX_ERR_VERIFY).


(** ** Concrete runs *)

(** One assignment of the header constants, to run the program on concrete
    command lines. *)
Definition sample_headers : Headers :=
  {| OCACCEL_JOBSIZE := 108; sizeof_helloworld_job := 32;
     OCACCEL_ADDRFLAG_ADDR := 1; OCACCEL_ADDRFLAG_SRC := 4;
     OCACCEL_ADDRFLAG_DST := 2; OCACCEL_ADDRFLAG_END := 16;
     OCACCEL_ACTION_DONE_IRQ := 1; OCACCEL_RETC_SUCCESS := 258;
     EX_ERR_VERIFY := 3 |}.

(** The three bytes [abc] of the input file. *)
Definition abc : list byte := [Byte.x61; Byte.x62; Byte.x63].

(** The action turns them into [ABC]. *)
Definition store_ABC : list (nat * byte) :=
  [(0%nat, Byte.x41); (1%nat, Byte.x42); (2%nat, Byte.x43)].

(** Every collaborator succeeds and the action upper-cases the text. *)
Definition uppercase_world : world :=
  {| file_size := fun _ => 3; file_bytes := fun _ => abc;
     file_read_rc := 0; ibuff_addr := 4096; obuff_addr := 8192;
     heap_fill := Byte.xaa; card_handle := 5; action_handle := 7;
     job_rc := 0; job_retc := 258; job_stores := store_ABC;
     file_write_rc := 0 |}.

(** The action copies the text unchanged. *)
Definition copy_world : world :=
  {| file_size := fun _ => 3; file_bytes := fun _ => abc;
     file_read_rc := 0; ibuff_addr := 4096; obuff_addr := 8192;
     heap_fill := Byte.xaa; card_handle := 5; action_handle := 7;
     job_rc := 0; job_retc := 258;
     job_stores := [(0%nat, Byte.x61); (1%nat, Byte.x62); (2%nat, Byte.x63)];
     file_write_rc := 0 |}.

(** The action also stores a byte past the end of the data. *)
Definition overrun_world : world :=
  {| file_size := fun _ => 3; file_bytes := fun _ => abc;
     file_read_rc := 0; ibuff_addr := 4096; obuff_addr := 8192;
     heap_fill := Byte.xaa; card_handle := 5; action_handle := 7;
     job_rc := 0; job_retc := 258;
     job_stores := store_ABC ++ [(4%nat, Byte.x21)];
     file_write_rc := 0 |}.

(** [ocaccel_attach_action] answers NULL. *)
Definition no_action_world : world :=
  {| file_size := fun _ => 3; file_bytes := fun _ => abc;
     file_read_rc := 0; ibuff_addr := 4096; obuff_addr := 8192;
     heap_fill := Byte.xaa; card_handle := 5; action_handle := 0;
     job_rc := 0; job_retc := 258; job_stores := []; file_write_rc := 0 |}.

(** The job completes and the action reports a failure code. *)
Definition bad_retc_world : world :=
  {| file_size := fun _ => 3; file_bytes := fun _ => abc;
     file_read_rc := 0; ibuff_addr := 4096; obuff_addr := 8192;
     heap_fill := Byte.xaa; card_handle := 5; action_handle := 7;
     job_rc := 0; job_retc := 260; job_stores := []; file_write_rc := 0 |}.

(** The job completes, the action reports a failure code, and
    [__file_write] fails. *)
Definition bad_retc_no_write_world : world :=
  {| file_size := fun _ => 3; file_bytes := fun _ => abc;
     file_read_rc := 0; ibuff_addr := 4096; obuff_addr := 8192;
     heap_fill := Byte.xaa; card_handle := 5; action_handle := 7;
     job_rc := 0; job_retc := 260; job_stores := []; file_write_rc := -1 |}.

(** [ocaccel_helloworld -i in -o out] *)
Definition cl_in_out : command_line :=
  mkCmd 5 [Opt_i "in"; Opt_o "out"] 0.

(** [ocaccel_helloworld -i in -o out -X] *)
Definition cl_in_out_verify : command_line :=
  mkCmd 6 [Opt_i "in"; Opt_o "out"; Opt_X] 0.

(** [ocaccel_helloworld -X] *)
Definition cl_verify_only : command_line := mkCmd 2 [Opt_X] 0.

(** [ocaccel_helloworld -X -o out -A CARD_DRAM -s 4] *)
Definition cl_card_to_file : command_line :=
  mkCmd 8 [Opt_X; Opt_o "out"; Opt_A "CARD_DRAM"; Opt_s 4] 0.

(** [ocaccel_helloworld -s 64 -A CARD_DRAM -a 0x1000 -D CARD_DRAM -d 0x2000
    -i in -o out] *)
Definition cl_overridden : command_line :=
  mkCmd 15 [Opt_s 64; Opt_A "CARD_DRAM"; Opt_a 4096; Opt_D "CARD_DRAM";
            Opt_d 8192; Opt_i "in"; Opt_o "out"] 0.

(** The runs used below. *)
Abbreviation run_plain := (@main sample_headers uppercase_world cl_in_out).
Abbreviation run_overridden := (@main sample_headers uppercase_world cl_overridden).
Abbreviation run_uppercase := (@main sample_headers uppercase_world cl_in_out_verify).
Abbreviation run_copy := (@main sample_headers copy_world cl_in_out_verify).
Abbreviation run_overrun := (@main sample_headers overrun_world cl_in_out_verify).
Abbreviation run_card_to_file := (@main sample_headers overrun_world cl_card_to_file).
Abbreviation run_no_action := (@main sample_headers no_action_world cl_in_out).
Abbreviation run_bad_retc := (@main sample_headers bad_retc_world cl_in_out).
Abbreviation run_verify_only := (@main sample_headers uppercase_world cl_verify_only).
Abbreviation run_bad_retc_no_write :=
  (@main sample_headers bad_retc_no_write_world cl_in_out).

(** ** Answers and messages read off a trace *)

Scheme Equality for stream.
Scheme Equality for message.

(** The message [m] was printed on the stream [st]. *)
Definition printed (st : stream) (m : message) (t : list event) : bool :=
  existsb (fun e => match e with
                    | Fprintf st' m' => stream_beq st st' && message_beq m m'
                    | _ => false
                    end) t.

Definition card_answers (t : list event) : list Z :=
  flat_map (fun e => match e with CardAllocDev _ _ p => [p] | _ => [] end) t.

Definition attach_answers (t : list event) : list Z :=
  flat_map (fun e => match e with AttachAction _ _ p => [p] | _ => [] end) t.

(** The action, the result and the return code of each executed job. *)
Definition job_answers (t : list event) : list (Z * Z * Z) :=
  flat_map (fun e => match e with
                     | SyncExecuteJob a _ _ r rt => [(a, r, rt)]
                     | _ => []
                     end) t.

Definition write_answers (t : list event) : list Z :=
  flat_map (fun e => match e with FileWrite _ _ r => [r] | _ => [] end) t.

Definition compare_answers (t : list event) : list (option Z) :=
  flat_map (fun e => match e with MemcmpInOut _ _ _ r => [r] | _ => [] end) t.

Definition trailing_answers (t : list event) : list (option Z) :=
  flat_map (fun e => match e with MemcmpTrailing _ _ r => [r] | _ => [] end) t.

(** The two buffers of a run that was given an input and an output file,
    as they are when the job has run. *)
Definition input_buffer (w : world) (f : string) : block :=
  overwrite (file_bytes w f)
    (memset (mkBlock (ibuff_addr w)
               (replicate (Z.to_nat (file_size w f)) (heap_fill w)))
       Byte.x00 (file_size w f)).

Definition output_buffer (w : world) (n : Z) : block :=
  action_stores (job_stores w)
    (memset (mkBlock (obuff_addr w) (replicate (Z.to_nat (u64 n)) (heap_fill w)))
       Byte.x00 (u64 n)).


(** How a run reports success: when the job fits and every call got the
    answer that lets [main] go on, the success marker is printed and the
    status is 0. *)
Definition reports_success {hdr : Headers}
    (r : list event * locals * outcome) : Prop :=
  let t := trace_of r in
  (sizeof_helloworld_job <=? OCACCEL_JOBSIZE) = true ->
  forallb call_succeeded t = true ->
  printed stdout Msg_SUCCESS t = true /\ outcome_of r = Exit EXIT_SUCCESS.

(** How a run reports each kind of failure. *)
Definition reports_failures {hdr : Headers}
    (r : list event * locals * outcome) : Prop :=
  let t := trace_of r in
  (In 0 (card_answers t) ->
     outcome_of r = Exit EXIT_FAILURE /\ printed stderr Err_open_card t = true) /\
  (In 0 (attach_answers t) ->
     outcome_of r = Exit EXIT_FAILURE /\ printed stderr Err_attach t = true) /\
  (forall a rcode rt, In (a, rcode, rt) (job_answers t) ->
     (rcode =? 0) = false ->
     outcome_of r = Exit EXIT_FAILURE /\ printed stderr Err_execution t = true) /\
  (forall a rt, In (a, 0, rt) (job_answers t) ->
     (rt =? OCACCEL_RETC_SUCCESS) = false ->
     forallb (fun res => 0 <=? res) (write_answers t) = true ->
     outcome_of r = Exit EXIT_FAILURE /\
     printed stderr Err_retc t = true /\
     printed stdout Msg_FAILED t = true /\
     printed stdout Msg_SUCCESS t = false /\
     printed stdout Msg_took t = false /\
     exists c, List.filter is_release t = [DetachAction a; CardFree c]) /\
  (forall res, In (Some res) (trailing_answers t) ->
     (res =? 0) = false ->
     outcome_of r = Exit EX_ERR_VERIFY /\ printed stderr Err_trailing t = true) /\
  (forall res res',
     In (Some res) (compare_answers t) ->
     In (Some res') (trailing_answers t) ->
     (res =? 0) && (res' =? 0) = false ->
     outcome_of r = Exit EX_ERR_VERIFY /\
     printed stdout Msg_SUCCESS t = true /\
     printed stderr Err_retc t = false /\
     printed stdout Msg_FAILED t = false /\
     printed stdout Msg_took t = true /\
     exists a c, List.filter is_release t = [DetachAction a; CardFree c]).

(** ** Resources and files read off a trace *)

Definition nonnull (p : Z) : bool := negb (p =? 0).

Definition mallocs (t : list event) : list Z :=
  flat_map (fun e => match e with OcaccelMalloc _ p => [p] | _ => [] end) t.

Definition frees (t : list event) : list Z :=
  flat_map (fun e => match e with Free p => [p] | _ => [] end) t.

Definition card_frees (t : list event) : list Z :=
  flat_map (fun e => match e with CardFree c => [c] | _ => [] end) t.

Definition detaches (t : list event) : list Z :=
  flat_map (fun e => match e with DetachAction a => [a] | _ => [] end) t.

Definition assigned_irqs (t : list event) : list Z :=
  flat_map (fun e => match e with AssignIrq a => [a] | _ => [] end) t.

Definition attach_irqs (t : list event) : list Z :=
  flat_map (fun e => match e with AttachAction _ irq _ => [irq] | _ => [] end) t.

(** The files written, each with the bytes handed to [__file_write]. *)
Definition written (t : list event) : list (string * list byte) :=
  flat_map (fun e => match e with FileWrite f d _ => [(f, d)] | _ => [] end) t.

(** The messages that [main] itself printed on the error stream, one for
    each of its [fprintf (stderr, ...)] calls.  What a collaborator prints
    on its own is not part of the trace. *)
Definition stderr_lines (t : list event) : list message :=
  flat_map (fun e => match e with Fprintf stderr m => [m] | _ => [] end) t.

(** A step of the buffer setup that failed: a negative file size, a NULL
    from [ocaccel_malloc], a negative result of [__file_read]. *)
Definition setup_failed (e : event) : bool :=
  match e with
  | FileSize _ r | FileRead _ _ _ r => r <? 0
  | OcaccelMalloc _ p => p =? 0
  | _ => false
  end.

(** ** The option loop, option by option *)

Definition is_space_name (space : string) : bool :=
  String.eqb space "CARD_DRAM" || String.eqb space "HOST_DRAM".

(** The message and the exit status with which an option ends the program,
    if it does. *)
Definition stops (ch : cli_option) : option (message * Z) :=
  match ch with
  | Opt_V => Some (Msg_version, EXIT_SUCCESS)
  | Opt_h => Some (Msg_usage, EXIT_SUCCESS)
  | Opt_unknown => Some (Msg_usage, EXIT_FAILURE)
  | Opt_A space | Opt_D space =>
      if is_space_name space then None else Some (Msg_usage, EXIT_FAILURE)
  | _ => None
  end.

Fixpoint first_stop (chs : list cli_option) : option (message * Z) :=
  match chs with
  | [] => None
  | ch :: rest =>
      match stops ch with
      | Some x => Some x
      | None => first_stop rest
      end
  end.

Definition is_Opt_N (ch : cli_option) : bool :=
  match ch with
  | Opt_N => true
  | _ => false
  end.

Definition is_Opt_X (ch : cli_option) : bool :=
  match ch with
  | Opt_X => true
  | _ => false
  end.

(** ** What the verification checks *)

(** The first [size] bytes of the two buffers agree and the 1024 bytes that
    follow them in the output buffer are zero, on a run that was given the
    input file [f], an output file and [-X]. *)
Definition verified (w : world) (f : string) : Prop :=
  take (Z.to_nat (file_size w f)) (bytes (input_buffer w f)) =
  take (Z.to_nat (file_size w f)) (bytes (output_buffer w (file_size w f + 1024))) /\
  take 1024 (drop (Z.to_nat (file_size w f))
               (bytes (output_buffer w (file_size w f + 1024))))
    = trailing_zeros.

(** ** More concrete runs *)

(** The first [ocaccel_malloc] answers NULL. *)
Definition no_memory_world : world :=
  {| file_size := fun _ => 3; file_bytes := fun _ => abc;
     file_read_rc := 0; ibuff_addr := 0; obuff_addr := 8192;
     heap_fill := Byte.xaa; card_handle := 5; action_handle := 7;
     job_rc := 0; job_retc := 258; job_stores := []; file_write_rc := 0 |}.

(** [ocaccel_action_sync_execute_job] fails. *)
Definition failed_job_world : world :=
  {| file_size := fun _ => 3; file_bytes := fun _ => abc;
     file_read_rc := 0; ibuff_addr := 4096; obuff_addr := 8192;
     heap_fill := Byte.xaa; card_handle := 5; action_handle := 7;
     job_rc := 1; job_retc := 0; job_stores := []; file_write_rc := 0 |}.

(** [ocaccel_helloworld -i in -o out -N] *)
Definition cl_polling : command_line :=
  mkCmd 6 [Opt_i "in"; Opt_o "out"; Opt_N] 0.

Abbreviation run_polling := (@main sample_headers uppercase_world cl_polling).
Abbreviation run_no_memory := (@main sample_headers no_memory_world cl_in_out).
Abbreviation run_failed_job := (@main sample_headers failed_job_world cl_in_out).

(** * The test script of the performance action *)

(** [test_*.sh] drives [hdl_perf_test] through a sweep of burst sizes and
    identifiers.  The commands it calls ([ocaccel_maint], [hdl_perf_test],
    [rm], [touch]) are events that carry the exit status they answered with;
    the arguments of [-C] and [-s] are taken to be single plain words, since
    the script expands both unquoted. *)
Module Script.

(** A word as [[ ... -ne 1 ]] reads it: an integer, or something that makes
    the test fail with an error. *)
Inductive word :=
| Int (z : Z)
| Other.

(** What [getopts ":C:s:h"] hands to the loop, one value of [opt] at a
    time: [:] for an option that lacks its argument and [?] for an unknown
    option, each with the option letter in [OPTARG]. *)
Inductive getopts_result :=
| Got_C (optarg : string)
| Got_s (optarg : word)
| Got_h
| Got_missing (optarg : string)
| Got_invalid (optarg : string).

Inductive line :=
| L_starting
| L_ocaccel_root
| L_action_root
| L_usage
| L_invalid_option (optarg : string)
| L_integer_expected
| L_testing (num size length idn : Z)
| L_duplex
| L_cmd (card : string) (num pattern : Z)
| L_failed
| L_ok
| L_long_test
| L_short_test
| L_test_ok.

Inductive sevent :=
| Echo (st : stream) (l : line)
| Ocaccel_maint (card : string) (status : Z)
| Rm_log
| Touch_log
| Hdl_perf_test (card : string) (num pattern : Z) (status : Z)
| Rm_outputs.

(** The exit status of the two tools, by their arguments. *)
Record tools := mkTools {
  maint_status : string -> Z;
  perf_status : string -> Z -> Z -> Z
}.

(** How a run ends: [exit], or a loop that was cut short. *)
Inductive ending :=
| Exited (status : Z)
| Unfinished.

Definition script (A : Type) : Type := (list sevent * (A + ending))%type.

Definition sret {A} (a : A) : script A := ([], inl a).

Definition sbind {A B} (m : script A) (k : A -> script B) : script B :=
  match m with
  | (t, inl a) => match k a with (t', r) => (t ++ t', r) end
  | (t, inr e) => (t, inr e)
  end.

Declare Scope script_scope.
Delimit Scope script_scope with script.
Bind Scope script_scope with script.
Notation "x <- m ;; k" := (sbind m (fun x => k))
  (at level 100, m at next level, right associativity) : script_scope.
Notation "m ;; k" := (sbind m (fun _ => k))
  (at level 100, right associativity) : script_scope.
Local Open Scope script_scope.

Definition run_cmd (e : sevent) : script unit := ([e], inl tt).
Definition echo (st : stream) (l : line) : script unit := run_cmd (Echo st l).
Definition sexit (status : Z) : script unit := ([], inr (Exited status)).

(** The shell variables the script sets from its options. *)
Record vars := mkVars {
  ocaccel_card : string;
  short : word
}.

(** [verbose=0  ocaccel_card=0  short=1] *)
Definition defaults : vars := mkVars "0" (Int 1).

Definition usage : script unit := echo stdout L_usage.

(** [case $opt in ... esac] *)
Definition getopts_case (v : vars) (opt : getopts_result) : script vars :=
  match opt with
  | Got_C optarg => sret (mkVars optarg (short v))
  | Got_s optarg => sret (mkVars (ocaccel_card v) optarg)
  | Got_h => usage ;; sexit 0 ;; sret v
  | Got_invalid optarg => echo stderr (L_invalid_option optarg) ;; sret v
  | Got_missing _ => sret v
  end.

(** [while getopts ":C:s:h" opt; do ... done] *)
Fixpoint getopts_loop (opts : list getopts_result) (v : vars) : script vars :=
  match opts with
  | [] => sret v
  | opt :: rest => v' <- getopts_case v opt ;; getopts_loop rest v'
  end.

(** [$(($(($idn<<16))+$(($length<<8))+$size))] in the shell's 64-bit
    arithmetic. *)
Definition pattern (size length idn : Z) : Z :=
  s64 (s64 (s64 (Z.shiftl idn 16) + s64 (Z.shiftl length 8)) + size).

(** [function test_perf_test] *)
Definition test_perf_test (tl : tools) (v : vars) (num size length idn : Z)
  : script unit :=
  echo stdout (L_testing num size length idn) ;;
  let pat := pattern size length idn in
  echo stdout L_duplex ;;
  let status := perf_status tl (ocaccel_card v) num pat in
  run_cmd (Hdl_perf_test (ocaccel_card v) num pat status) ;;
  if negb (status =? 0) then
    echo stdout (L_cmd (ocaccel_card v) num pat) ;;
    echo stdout L_failed ;;
    sexit 1
  else
    echo stdout L_ok.

(** [[ $short -ne 1 ]]: its status is 0 when [short] is an integer other
    than 1; on anything else than an integer it prints an error and the
    [else] branch is taken. *)
Definition short_ne_1 (v : vars) : script bool :=
  match short v with
  | Int z => sret (negb (z =? 1))
  | Other => echo stderr L_integer_expected ;; sret false
  end.

(** The body of [while [ $id -lt 16 ]]. *)
Definition sweep_body (tl : tools) (v : vars) (id : Z) : script unit :=
  long <- short_ne_1 v ;;
  if long then
    echo stdout L_long_test ;;
    test_perf_test tl v 10000 2 255 id ;;
    test_perf_test tl v 10000 3 255 id ;;
    test_perf_test tl v 10000 4 255 id ;;
    test_perf_test tl v 10000 5 127 id ;;
    test_perf_test tl v 10000 6 63 id ;;
    test_perf_test tl v 10000 7 31 id
  else
    echo stdout L_short_test ;;
    test_perf_test tl v 5 2 255 id ;;
    test_perf_test tl v 5 3 255 id ;;
    test_perf_test tl v 5 4 255 id ;;
    test_perf_test tl v 5 5 127 id ;;
    test_perf_test tl v 5 6 63 id ;;
    test_perf_test tl v 5 7 31 id.

(** [while [ $id -lt 16 ]; do ...; id=$(($id + 1)); done], with a bound on
    the number of rounds. *)
Fixpoint sweep (fuel : nat) (tl : tools) (v : vars) (id : Z) : script unit :=
  if id <? 16 then
    match fuel with
    | O => ([], inr Unfinished)
    | S fuel' => sweep_body tl v id ;; sweep fuel' tl v (s64 (id + 1))
    end
  else sret tt.

(** The script from its first line to its last. *)
Definition script_body (fuel : nat) (tl : tools) (opts : list getopts_result)
  : script unit :=
  echo stdout L_starting ;;
  echo stdout L_ocaccel_root ;;
  echo stdout L_action_root ;;
  v <- getopts_loop opts defaults ;;
  let status := maint_status tl (ocaccel_card v) in
  run_cmd (Ocaccel_maint (ocaccel_card v) status) ;;
  (if negb (status =? 0) then sexit 1 else sret tt) ;;
  run_cmd Rm_log ;;
  run_cmd Touch_log ;;
  test_perf_test tl v 10 7 0 0 ;;
  test_perf_test tl v 10 7 1 0 ;;
  sweep fuel tl v 0 ;;
  echo stdout L_ok ;;
  run_cmd Rm_outputs ;;
  echo stdout L_test_ok ;;
  sexit 0.

(** A run: the trace, and how it ended; a script that ran off its last line
    would end with the status of its last command. *)
Definition run_script (fuel : nat) (tl : tools) (opts : list getopts_result)
  : list sevent * ending :=
  match script_body fuel tl opts with
  | (t, inl _) => (t, Exited 0)
  | (t, inr e) => (t, e)
  end.

(** ** What a run shows *)

(** The [hdl_perf_test] calls of a trace: card, number of bursts, pattern
    and exit status. *)
Definition perf_calls (t : list sevent) : list (string * Z * Z * Z) :=
  flat_map (fun e => match e with
                     | Hdl_perf_test c n p st => [(c, n, p, st)]
                     | _ => []
                     end) t.

Definition maint_calls (t : list sevent) : list (string * Z) :=
  flat_map (fun e => match e with
                     | Ocaccel_maint c st => [(c, st)]
                     | _ => []
                     end) t.

Definition says_test_ok (t : list sevent) : bool :=
  existsb (fun e => match e with Echo stdout L_test_ok => true | _ => false end) t.

Definition call_card (c : string * Z * Z * Z) : string := fst (fst (fst c)).
Definition call_num (c : string * Z * Z * Z) : Z := snd (fst (fst c)).
Definition call_pattern (c : string * Z * Z * Z) : Z := snd (fst c).
Definition call_status (c : string * Z * Z * Z) : Z := snd c.

Definition passed (c : string * Z * Z * Z) : bool := call_status c =? 0.

Definition on_card (card : string) (c : string * Z * Z * Z) : bool :=
  String.eqb (call_card c) card.

(** The status of a call is what the tool answers to its arguments. *)
Definition answered (tl : tools) (c : string * Z * Z * Z) : bool :=
  call_status c =? perf_status tl (call_card c) (call_num c) (call_pattern c).

(** The fields of a pattern, as its bytes. *)
Definition pattern_size (p : Z) : Z := Z.land p 255.
Definition pattern_length (p : Z) : Z := Z.land (Z.shiftr p 8) 255.
Definition pattern_id (p : Z) : Z := Z.shiftr p 16.

(** A pattern within the sweep the script is meant to make: a size from 2
    to 7, an identifier from 0 to 15, and a burst of [length + 1] beats of
    [2 ^ size] bytes that stays within 4096 bytes. *)
Definition in_sweep (p : Z) : bool :=
  (2 <=? pattern_size p) && (pattern_size p <=? 7) &&
  (0 <=? pattern_id p) && (pattern_id p <? 16) &&
  ((pattern_length p + 1) * 2 ^ pattern_size p <=? 4096).

Definition has_help (opt : getopts_result) : bool :=
  match opt with Got_h => true | _ => false end.

(** The card and the test length the options select: the last [-C] and
    the last [-s], or the defaults. *)
Definition card_after (opts : list getopts_result) (c : string) : string :=
  fold_left (fun c opt => match opt with Got_C a => a | _ => c end) opts c.

Definition short_after (opts : list getopts_result) (s : word) : word :=
  fold_left (fun s opt => match opt with Got_s a => a | _ => s end) opts s.

Definition chosen_card (opts : list getopts_result) : string :=
  card_after opts (ocaccel_card defaults).

Definition chosen_short (opts : list getopts_result) : word :=
  short_after opts (short defaults).

(** What a sequence of tests does: it calls neither [ocaccel_maint] nor
    announces the end, every call is within the sweep, on the card and
    carries the tool's answer, and it either runs its [n] calls, which all
    pass, or exits with 1 at the first call that fails. *)
Definition tests_ok (tl : tools) (n : nat) (card : string) (m : script unit)
  : Prop :=
  let t := fst m in
  maint_calls t = [] /\ says_test_ok t = false /\
  forallb (fun c => in_sweep (call_pattern c)) (perf_calls t) = true /\
  forallb (fun c => on_card card c && answered tl c) (perf_calls t) = true /\
  match snd m with
  | inl _ => forallb passed (perf_calls t) = true /\ length (perf_calls t) = n
  | inr e =>
      e = Exited 1 /\
      exists l c, perf_calls t = l ++ [c] /\
                  forallb passed l = true /\ passed c = false
  end.

(** Tools that always succeed, and tools whose [hdl_perf_test] fails on
    one pattern. *)
Definition good_tools : tools := mkTools (fun _ => 0) (fun _ _ _ => 0).

Definition tools_failing_at (p : Z) : tools :=
  mkTools (fun _ => 0) (fun _ _ pat => if pat =? p then 1 else 0).

Definition no_maint_tools : tools := mkTools (fun _ => 1) (fun _ _ _ => 0).

End Script.

(** * Proofs *)

(** ** Symbolic execution of [main_body] *)

(** Unfolds the program down to a tree of the tests it makes. *)
Ltac exec :=
  cbv beta iota zeta delta
    [run main_body load_input alloc_output open_card attach_action execute_job
     write_output test_return_code verify_result teardown
     ocaccel_prepare_helloworld ocaccel_action_sync_execute_job ocaccel_malloc
     out_error2 out_error1 out_error usage fprintf when
     bind ret get assign call exit abort fault
     app negb andb
     ocaccel_job_set ocaccel_addr_set set_retc retc win_addr addrtype_eqb
     option_map
     rc card_no card action input output timeout size ibuff obuff type_in
     addr_in type_out addr_out verify exit_code action_irq verbose_flag cjob
     mjob set_rc set_card_no set_card set_action set_input set_output
     set_timeout set_size set_ibuff set_obuff set_type_in set_addr_in
     set_type_out set_addr_out set_verify set_exit_code set_action_irq
     set_verbose_flag set_cjob set_mjob].

Ltac head_test t :=
  lazymatch t with
  | match ?x with _ => _ end => head_test x
  | (match ?x with _ => _ end) _ => head_test x
  | _ => t
  end.

(** The goal is [r = tree -> G]: decide the first test of the tree. *)
Ltac step :=
  lazymatch goal with
  | |- _ = match ?x with _ => _ end -> _ =>
      let c := head_test x in destruct c eqn:?; cbv beta iota
  end.

Ltac paths := exec; repeat step; intros ->.

Ltac name_run r :=
  match goal with
  | |- context [run ?p ?s] =>
      let E := fresh "E" in remember (run p s) as r eqn:E; revert E
  end.

Ltac in_cases :=
  repeat match goal with
    | H : False |- _ => destruct H
    | H : false = true |- _ => discriminate H
    | H : true = false |- _ => discriminate H
    | H : In _ [] |- _ => destruct H
    | H : @eq event _ _ |- _ => first [discriminate H | injection H as; subst]
    | H : @eq outcome _ _ |- _ => first [discriminate H | injection H as; subst]
    | H : Some _ = Some _ |- _ => injection H as; subst
    | H : Some _ = None |- _ => discriminate H
    | H : None = Some _ |- _ => discriminate H
    | H : (_, _) = (_, _) |- _ => injection H as; subst
    | H : _ && _ = true |- _ => apply andb_true_iff in H; destruct H
    | H : negb _ = true |- _ => apply negb_true_iff in H
    | H : negb _ = false |- _ => apply negb_false_iff in H
    | H : (_ =? _) = true |- _ => apply Z.eqb_eq in H
    | H : (_ =? _) = false |- _ => apply Z.eqb_neq in H
    | H : (_ <=? _) = true |- _ => apply Z.leb_le in H
    | H : (_ <=? _) = false |- _ => apply Z.leb_gt in H
    | H : (_ <? _) = true |- _ => apply Z.ltb_lt in H
    | H : (_ <? _) = false |- _ => apply Z.ltb_ge in H
    | H : In _ (_ :: _) |- _ => destruct H as [H | H]
    | H : _ \/ _ |- _ => destruct H as [H | H]
    end.

Ltac use_tests :=
  repeat match goal with
    | H : (_ =? _) = _ |- _ => rewrite H
    | H : (_ <? _) = _ |- _ => rewrite H
    | H : (_ <=? _) = _ |- _ => rewrite H
    end.

Ltac observe :=
  cbn [trace_of locals_of outcome_of fst snd
       List.filter is_release freed_while_attached is_memcmp call_succeeded
       printed card_answers attach_answers job_answers write_answers
       compare_answers trailing_answers flat_map
       stream_beq message_beq
       In negb orb andb existsb forallb app
       ptr
       job_in job_out addr addr_size addr_type flags win_addr
       rc card_no card action input output timeout size ibuff obuff type_in
       addr_in type_out addr_out verify exit_code action_irq verbose_flag
       cjob mjob set_rc set_card_no set_card set_action set_input set_output
       set_timeout set_size set_ibuff set_obuff set_type_in set_addr_in
       set_type_out set_addr_out set_verify set_exit_code set_action_irq
       set_verbose_flag set_cjob set_mjob] in *.

Ltac tidy :=
  observe; autorewrite with block in *; use_tests;
  repeat match goal with
    | H : context [0 =? 0] |- _ => change (0 =? 0) with true in H
    | |- context [0 =? 0] => change (0 =? 0) with true
    end;
  cbv beta iota in *; observe.

Ltac pick := solve [repeat (first [left; congruence | right])].

Ltac leaf :=
  tidy; intros; in_cases; subst; tidy; repeat split; intros;
  in_cases; subst; tidy; in_cases;
  try reflexivity; try congruence; try contradiction; try lia; try pick;
  try (eexists; reflexivity); try (do 2 eexists; reflexivity).

(** ** Facts about memory *)

Lemma to_N_inj (a b : byte) : Byte.to_N a = Byte.to_N b -> a = b.
Proof.
  intros H. assert (Some a = Some b) as E; [|congruence].
  rewrite <- (Byte.of_to_N a), <- (Byte.of_to_N b), H. reflexivity.
Qed.

Lemma byte_cmp_zero (x : list byte) : forall y,
  length x = length y -> (byte_cmp x y = 0 <-> x = y).
Proof.
  induction x as [|a x IH]; intros [|b y] Hlen; try discriminate Hlen; cbn.
  - tauto.
  - injection Hlen as Hlen. destruct (Byte.eqb a b) eqn:E.
    + apply Byte.byte_dec_bl in E. subst b. rewrite (IH y Hlen).
      split; congruence.
    + apply Byte.eqb_false in E. split.
      * intros H. exfalso. apply E, to_N_inj. lia.
      * congruence.
Qed.

Lemma base_memset blk c n : base (memset blk c n) = base blk.
Proof. reflexivity. Qed.

Lemma base_overwrite data blk : base (overwrite data blk) = base blk.
Proof. reflexivity. Qed.

Lemma base_action_stores stores blk : base (action_stores stores blk) = base blk.
Proof. reflexivity. Qed.

Lemma base_mkBlock p l : base (mkBlock p l) = p.
Proof. reflexivity. Qed.

Create Rewrite HintDb block.
#[local] Hint Rewrite base_memset base_overwrite base_action_stores base_mkBlock : block.

Lemma length_memset (blk : block) c n :
  length (bytes blk) = Z.to_nat n -> length (bytes (memset blk c n)) = Z.to_nat n.
Proof.
  intros H. unfold memset. cbn.
  rewrite length_app, length_replicate, length_drop. lia.
Qed.

Lemma length_overwrite data (blk : block) :
  length (bytes (overwrite data blk)) = length (bytes blk).
Proof.
  unfold overwrite. cbn. rewrite length_app, length_take, length_drop. lia.
Qed.

Lemma length_action_stores stores (blk : block) :
  length (bytes (action_stores stores blk)) = length (bytes blk).
Proof.
  unfold action_stores. cbn. generalize (bytes blk).
  induction stores as [|st stores IH]; intros l; cbn; [reflexivity|].
  rewrite IH. apply length_insert.
Qed.

Lemma memcmp_defined (x y : list byte) n :
  0 <= n -> n <= Z.of_nat (length x) -> n <= Z.of_nat (length y) ->
  exists res,
    memcmp (Some x) (Some y) n = Some res /\
    (res = 0 <-> take (Z.to_nat n) x = take (Z.to_nat n) y).
Proof.
  intros H0 Hx Hy. unfold memcmp.
  replace ((0 <=? n) && (n <=? Z.of_nat (length x)) && (n <=? Z.of_nat (length y)))
    with true.
  - eexists; split; [reflexivity|]. apply byte_cmp_zero.
    rewrite !length_take. lia.
  - symmetry. rewrite !andb_true_iff. repeat split; apply Z.leb_le; assumption.
Qed.

Lemma view_defined (blk : block) off :
  0 <= off <= Z.of_nat (length (bytes blk)) ->
  view (Some blk) off = Some (drop (Z.to_nat off) (bytes blk)).
Proof.
  intros [H0 H1]. unfold view.
  replace ((0 <=? off) && (off <=? Z.of_nat (length (bytes blk)))) with true;
    [reflexivity|].
  symmetry. rewrite andb_true_iff. split; apply Z.leb_le; assumption.
Qed.

Lemma u64_small z : 0 <= z < 2 ^ 64 -> u64 z = z.
Proof. intros H. unfold u64. apply Z.mod_small. exact H. Qed.

Lemma nonzero_not_trailing_zeros (l : list byte) b :
  In b l -> b <> Byte.x00 -> l <> trailing_zeros.
Proof.
  intros Hin Hb ->. unfold trailing_zeros in Hin.
  apply list_elem_of_In, elem_of_replicate in Hin. tauto.
Qed.

Lemma length_input_buffer w f :
  length (bytes (input_buffer w f)) = Z.to_nat (file_size w f).
Proof.
  unfold input_buffer. rewrite length_overwrite. apply length_memset.
  cbn. apply length_replicate.
Qed.

Lemma length_output_buffer w n :
  length (bytes (output_buffer w n)) = Z.to_nat (u64 n).
Proof.
  unfold output_buffer. rewrite length_action_stores. apply length_memset.
  cbn. apply length_replicate.
Qed.

Lemma in_out_compare_defined w f :
  0 <= file_size w f < 2 ^ 63 ->
  exists res,
    memcmp (view (Some (input_buffer w f)) 0)
           (view (Some (output_buffer w (file_size w f + 1024))) 0)
           (u64 (file_size w f)) = Some res.
Proof.
  intros Hfs.
  rewrite !view_defined by lia. cbn [Z.to_nat drop].
  rewrite (u64_small (file_size w f)) by lia.
  destruct (memcmp_defined (bytes (input_buffer w f))
              (bytes (output_buffer w (file_size w f + 1024))) (file_size w f))
    as (res & E & _).
  - lia.
  - rewrite length_input_buffer. lia.
  - rewrite length_output_buffer, u64_small; lia.
  - exists res. exact E.
Qed.

Lemma trailing_compare_defined w fs :
  0 <= fs < 2 ^ 63 ->
  Z.of_nat (length (bytes (output_buffer w (fs + 1024)))) = fs + 1024 /\
  exists res,
    memcmp (view (Some (output_buffer w (fs + 1024))) fs)
           (Some trailing_zeros) 1024 = Some res /\
    (res = 0 <->
     take 1024 (drop (Z.to_nat fs) (bytes (output_buffer w (fs + 1024))))
       = trailing_zeros).
Proof.
  intros Hfs.
  assert (Z.of_nat (length (bytes (output_buffer w (fs + 1024)))) = fs + 1024) as Hlen.
  { rewrite length_output_buffer, u64_small; lia. }
  split; [exact Hlen|].
  rewrite view_defined by lia.
  destruct (memcmp_defined
              (drop (Z.to_nat fs) (bytes (output_buffer w (fs + 1024))))
              trailing_zeros 1024) as (res & E & Hres).
  - lia.
  - rewrite length_drop. lia.
  - unfold trailing_zeros. rewrite length_replicate. lia.
  - exists res. split; [exact E|]. rewrite Hres.
    change (Z.to_nat 1024) with 1024%nat.
    replace (take 1024 trailing_zeros) with trailing_zeros; [tauto|].
    symmetry. apply take_ge. unfold trailing_zeros. rewrite length_replicate. lia.
Qed.

(** ** From events to the answers read off a trace *)

Lemma printed_In st m t : printed st m t = true <-> In (Fprintf st m) t.
Proof.
  unfold printed. rewrite existsb_exists. split.
  - intros (e & Hin & He). destruct e; try discriminate He.
    apply andb_true_iff in He as [Hs Hm].
    apply internal_stream_dec_bl in Hs. apply internal_message_dec_bl in Hm.
    subst. exact Hin.
  - intros Hin. exists (Fprintf st m). split; [exact Hin|].
    apply andb_true_iff. split.
    + apply internal_stream_dec_lb. reflexivity.
    + apply internal_message_dec_lb. reflexivity.
Qed.


Lemma In_card_answers d n p t : In (CardAllocDev d n p) t -> In p (card_answers t).
Proof.
  intros H. unfold card_answers. apply in_flat_map.
  eexists; split; [exact H | left; reflexivity].
Qed.

Lemma In_attach_answers c i p t : In (AttachAction c i p) t -> In p (attach_answers t).
Proof.
  intros H. unfold attach_answers. apply in_flat_map.
  eexists; split; [exact H | left; reflexivity].
Qed.

Lemma In_job_answers a j tm r rt t :
  In (SyncExecuteJob a j tm r rt) t -> In (a, r, rt) (job_answers t).
Proof.
  intros H. unfold job_answers. apply in_flat_map.
  eexists; split; [exact H | left; reflexivity].
Qed.

Lemma In_compare_answers i ob n r t :
  In (MemcmpInOut i ob n r) t -> In r (compare_answers t).
Proof.
  intros H. unfold compare_answers. apply in_flat_map.
  eexists; split; [exact H | left; reflexivity].
Qed.

Lemma In_trailing_answers p n r t :
  In (MemcmpTrailing p n r) t -> In r (trailing_answers t).
Proof.
  intros H. unfold trailing_answers. apply in_flat_map.
  eexists; split; [exact H | left; reflexivity].
Qed.



Lemma diagnosed_printed t : diagnosed t -> diagnostic_printed t = true.
Proof.
  intros (m & Hin & Hm). unfold diagnostic_printed. apply existsb_exists.
  exists (Fprintf stderr m). split; assumption.
Qed.

Section Runs.
Context {hdr : Headers}.
Variable w : world.

Lemma getopt_case_cases ch s :
  (exists s', getopt_case ch s = ([], s', Next tt) /\
              exit_code s' = exit_code s /\ ibuff s' = ibuff s /\ obuff s' = obuff s) \/
  (exists t status, getopt_case ch s = (t, s, Stop (Exit status)) /\
                    forallb is_help t = true).
Proof.
  destruct ch; cbn; try (left; eexists; repeat split; reflexivity);
    try (right; do 2 eexists; split; reflexivity).
  all: destruct (String.eqb _ _); [left; eexists; repeat split; reflexivity|];
       destruct (String.eqb _ _); [left; eexists; repeat split; reflexivity|];
       right; do 2 eexists; split; reflexivity.
Qed.

Lemma getopt_loop_cases chs : forall s,
  exists t s' r, getopt_loop chs s = (t, s', r) /\
    exit_code s' = exit_code s /\ ibuff s' = ibuff s /\ obuff s' = obuff s /\
    ((r = Next tt /\ t = []) \/
     (exists status, r = Stop (Exit status) /\ forallb is_help t = true)).
Proof.
  induction chs as [|ch rest IH]; intros s; cbn.
  - exists [], s, (Next tt). repeat split; auto.
  - unfold bind.
    destruct (getopt_case_cases ch s) as [(s1 & E & He & Hi & Ho)|(t & st & E & Ht)];
      rewrite E; cbv beta iota.
    + destruct (IH s1) as (t2 & s2 & r & E2 & He2 & Hi2 & Ho2 & Hr). rewrite E2.
      exists ([] ++ t2), s2, r. repeat split; try congruence. exact Hr.
    + exists t, s, (Stop (Exit st)). repeat split; auto. right; eauto.
Qed.

Lemma parse_command_line_cases cl s :
  exists t s' r, parse_command_line cl s = (t, s', r) /\
    exit_code s' = exit_code s /\ ibuff s' = ibuff s /\ obuff s' = obuff s /\
    ((r = Next tt /\ t = []) \/
     (exists status, r = Stop (Exit status) /\ forallb is_help t = true)).
Proof.
  unfold parse_command_line, bind.
  destruct (getopt_loop_cases (options cl) s)
    as (t & s1 & r & E & He & Hi & Ho & [[-> ->]|(st & -> & Ht)]);
    rewrite E; cbv beta iota.
  - destruct (operands cl =? 0); cbn.
    + destruct (argc cl =? 1); cbn.
      * do 3 eexists; split; [reflexivity|]. repeat split; auto. right; eauto.
      * do 3 eexists; split; [reflexivity|]. repeat split; auto.
    + do 3 eexists; split; [reflexivity|]. repeat split; auto. right; eauto.
  - do 3 eexists; split; [reflexivity|]. repeat split; auto. right; eauto.
Qed.

Lemma main_cases cl :
  (exists s0, parse_command_line cl init = ([], s0, Next tt) /\
              main w cl = run (main_body w) s0 /\ fresh s0) \/
  (exists t s status, parse_command_line cl init = (t, s, Stop (Exit status)) /\
                      main w cl = (t, s, Exit status) /\
                      forallb is_help t = true /\ fresh s).
Proof.
  unfold main, main_prog, run, bind.
  destruct (parse_command_line_cases cl init)
    as (t & s1 & r & E & He & Hi & Ho & [[-> ->]|(st & -> & Ht)]);
    rewrite E; cbv beta iota.
  - left; exists s1; split; [reflexivity|]. split.
    + destruct (main_body w s1) as [[t s'] [u|o]]; reflexivity.
    + repeat split; assumption.
  - right; exists t, s1, st. repeat split; assumption.
Qed.

Lemma help_not_in t e : forallb is_help t = true -> is_help e = false -> ~ In e t.
Proof.
  intros Hall He Hin. rewrite forallb_forall in Hall.
  apply Hall in Hin. congruence.
Qed.

Lemma help_monitor t b : forallb is_help t = true -> freed_while_attached b t = false.
Proof.
  induction t as [|e t IH]; [reflexivity|]. cbn. intros H.
  apply andb_true_iff in H as [He Ht].
  destruct e; try discriminate He. cbn. auto.
Qed.

Lemma help_no_memcmp t : forallb is_help t = true -> existsb is_memcmp t = false.
Proof.
  induction t as [|e t IH]; [reflexivity|]. cbn. intros H.
  apply andb_true_iff in H as [He Ht].
  destruct e; try discriminate He. cbn. auto.
Qed.

(** The size check of [ocaccel_prepare_helloworld] comes before anything is
    written: a job that fits is built, a job that does not fit aborts the
    program with the locals untouched. *)
Lemma prepare_size_check a_in sz_in t_in a_out sz_out t_out s :
  (sizeof_helloworld_job <= OCACCEL_JOBSIZE ->
   exists s', ocaccel_prepare_helloworld a_in sz_in t_in a_out sz_out t_out s
              = ([Fprintf stderr Msg_prepare], s', Next tt)) /\
  (OCACCEL_JOBSIZE < sizeof_helloworld_job ->
   ocaccel_prepare_helloworld a_in sz_in t_in a_out sz_out t_out s
   = ([Fprintf stderr Msg_prepare], s, Stop Abort)).
Proof.
  split; intros H.
  - apply Z.leb_le in H. unfold ocaccel_prepare_helloworld. exec.
    rewrite H. cbv beta iota. eexists. reflexivity.
  - apply Z.leb_gt in H. unfold ocaccel_prepare_helloworld. exec.
    rewrite H. reflexivity.
Qed.

Lemma body_release (s : locals) :
  let r := run (main_body w) s in
  freed_while_attached false (trace_of r) = false /\
  forall c irq a status,
    In (AttachAction c irq a) (trace_of r) -> a <> 0 -> outcome_of r = Exit status ->
    List.filter is_release (trace_of r) = [DetachAction a; CardFree c].
Proof.
  cbv zeta. destruct s. name_run r. paths.
  all: split; [tidy; reflexivity | leaf].
Qed.

(** C1.  Whatever the command line and the collaborators' answers, the card
    is never freed while an action is attached; and on every run that got a
    non-null action from [ocaccel_attach_action] and ends in [exit], the
    release calls are exactly [ocaccel_detach_action(action)] followed by
    [ocaccel_card_free(card)]. *)
Theorem C1_detach_before_card_free (cl : command_line) :
  let r := main w cl in
  freed_while_attached false (trace_of r) = false /\
  forall c irq a status,
    In (AttachAction c irq a) (trace_of r) -> a <> 0 -> outcome_of r = Exit status ->
    List.filter is_release (trace_of r) = [DetachAction a; CardFree c].
Proof.
  destruct (main_cases cl) as [(s0 & _ & E & _)|(t & s & st & _ & E & Ht & _)];
    rewrite E.
  - apply body_release.
  - cbn. split; [apply help_monitor; exact Ht|].
    intros c irq a status Hin. exfalso. revert Hin. apply help_not_in; auto.
Qed.

(** C7.  When the end-of-chain flag is a bit of its own (non-zero and
    disjoint from the address and source flags), a job built by
    [ocaccel_prepare_helloworld] carries it on the output descriptor and not
    on the input descriptor: exactly one descriptor of the job ends the
    chain, whatever the arguments. *)
Theorem C7_one_end_of_chain a_in sz_in t_in a_out sz_out t_out s t s' :
  OCACCEL_ADDRFLAG_END <> 0 ->
  Z.land OCACCEL_ADDRFLAG_ADDR OCACCEL_ADDRFLAG_END = 0 ->
  Z.land OCACCEL_ADDRFLAG_SRC OCACCEL_ADDRFLAG_END = 0 ->
  ocaccel_prepare_helloworld a_in sz_in t_in a_out sz_out t_out s = (t, s', Next tt) ->
  has_flag (job_out (mjob s')) OCACCEL_ADDRFLAG_END = true /\
  has_flag (job_in (mjob s')) OCACCEL_ADDRFLAG_END = false /\
  List.filter (fun d => has_flag d OCACCEL_ADDRFLAG_END) (descriptors (mjob s'))
    = [job_out (mjob s')] /\
  win_addr (cjob s') = mjob s'.
Proof.
  intros Hend Haddr Hsrc.
  unfold ocaccel_prepare_helloworld. exec.
  destruct (sizeof_helloworld_job <=? OCACCEL_JOBSIZE); [|discriminate].
  intros E. injection E as _ <-. observe.
  assert (Hout : has_flag
            (mkAddr a_out (u32 sz_out) t_out
               (Z.lor (Z.lor OCACCEL_ADDRFLAG_ADDR OCACCEL_ADDRFLAG_DST)
                  OCACCEL_ADDRFLAG_END)) OCACCEL_ADDRFLAG_END = true).
  { unfold has_flag; cbn [flags]. apply Z.eqb_eq.
    rewrite Z.land_lor_distr_l, Z.land_diag.
    apply Z.bits_inj'. intros n Hn.
    rewrite Z.lor_spec, Z.land_spec.
    destruct (Z.testbit OCACCEL_ADDRFLAG_END n);
      [apply orb_true_r | rewrite andb_false_r; reflexivity]. }
  assert (Hin : has_flag
            (mkAddr a_in (u32 sz_in) t_in
               (Z.lor OCACCEL_ADDRFLAG_ADDR OCACCEL_ADDRFLAG_SRC))
            OCACCEL_ADDRFLAG_END = false).
  { unfold has_flag; cbn [flags]. apply Z.eqb_neq.
    rewrite Z.land_lor_distr_l, Haddr, Hsrc, Z.lor_0_l. lia. }
  unfold descriptors; cbn [List.filter job_in job_out].
  rewrite Hout, Hin. repeat split; reflexivity.
Qed.

(** C8.  The code does not guard the interrupt assignment: on every run in
    which [ocaccel_attach_action] answered NULL while interrupts were
    requested, [ocaccel_action_assign_irq] is called with that NULL action
    (the test [action == NULL] comes after the call). *)
Theorem C8_assign_irq_with_null_action (cl : command_line) c irq :
  In (AttachAction c irq 0) (trace_of (main w cl)) ->
  irq <> 0 ->
  In (AssignIrq 0) (trace_of (main w cl)).
Proof.
  destruct (main_cases cl) as [(s0 & _ & E & _)|(t & s & st & _ & E & Ht & _)];
    rewrite E.
  - clear E. destruct s0. name_run r. paths.
    all: leaf.
    all: match goal with H : action_handle w = 0 |- _ => rewrite H end; pick.
  - cbn. intros Hin. exfalso. revert Hin. apply help_not_in; auto.
Qed.

(** C9.  The comparison is reached without buffers: when every
    collaborator succeeds and the job fits, [ocaccel_helloworld -X] (no
    input file, no output file, both memory spaces HOST_DRAM by default)
    calls [memcmp(ibuff, obuff, size)] with both pointers NULL, and the run
    faults. *)
Theorem C9_compare_with_null_buffers :
  sizeof_helloworld_job <= OCACCEL_JOBSIZE ->
  card_handle w <> 0 -> action_handle w <> 0 ->
  job_rc w = 0 -> job_retc w = OCACCEL_RETC_SUCCESS ->
  let r := main w cl_verify_only in
  input (locals_of r) = None /\ output (locals_of r) = None /\
  In (MemcmpInOut 0 0 (1024 * 1024) None) (trace_of r) /\
  outcome_of r = Fault.
Proof.
  intros Hsz Hc Ha Hrc Hretc. cbv zeta.
  assert (main w cl_verify_only = run (main_body w) (set_verify 1 init)) as ->.
  { destruct (main_cases cl_verify_only)
      as [(s0 & Ep & E & _)|(t & s & st & Ep & _)]; [|discriminate Ep].
    rewrite E. injection Ep as <-. reflexivity. }
  unfold init. cbv [set_verify]. observe. name_run r. paths.
  all: observe; in_cases; try lia; try congruence.
  all: try (match goal with H : memcmp _ _ _ = Some _ |- _ => discriminate H end).
  all: repeat split; try reflexivity.
  all: repeat first [left; reflexivity | right].
Qed.

(** C10.  On every run that hands a job to the action: if an input file
    was named, [size] is that file's size, the source is HOST_DRAM at the
    address of the input buffer, and the job's input descriptor says so (its
    32-bit length field holds the size as [uint32_t]), whatever [-s], [-A]
    and [-a] said; if an output file was named, the destination is HOST_DRAM
    at the address of the output buffer, whatever [-D] and [-d] said. *)
Theorem C10_files_force_host_buffers (cl : command_line) a j tmo rcode rt :
  let r := main w cl in
  let s := locals_of r in
  In (SyncExecuteJob a j tmo rcode rt) (trace_of r) ->
  (forall f, input s = Some f ->
     size s = file_size w f /\
     type_in s = OCACCEL_ADDRTYPE_HOST_DRAM /\
     ibuff_addr w <> 0 /\ ptr (ibuff s) = ibuff_addr w /\
     addr_in s = ptr (ibuff s) /\
     job_in (win_addr j) =
       mkAddr (ibuff_addr w) (u32 (file_size w f)) OCACCEL_ADDRTYPE_HOST_DRAM
         (Z.lor OCACCEL_ADDRFLAG_ADDR OCACCEL_ADDRFLAG_SRC)) /\
  (forall f, output s = Some f ->
     type_out s = OCACCEL_ADDRTYPE_HOST_DRAM /\
     obuff_addr w <> 0 /\ ptr (obuff s) = obuff_addr w /\
     addr_out s = ptr (obuff s) /\
     addr (job_out (win_addr j)) = obuff_addr w /\
     addr_type (job_out (win_addr j)) = OCACCEL_ADDRTYPE_HOST_DRAM).
Proof.
  destruct (main_cases cl) as [(s0 & _ & E & _)|(t & s & st & _ & E & Ht & _)];
    rewrite E.
  - clear E. cbv zeta. destruct s0. name_run r. paths.
    all: leaf.
  - cbn. intros Hin. exfalso. revert Hin. apply help_not_in; auto.
Qed.

Lemma body_off_host (s : locals) :
  exit_code s = EXIT_SUCCESS ->
  let r := run (main_body w) s in
  verify (locals_of r) <> 0 ->
  type_in (locals_of r) <> OCACCEL_ADDRTYPE_HOST_DRAM \/
  type_out (locals_of r) <> OCACCEL_ADDRTYPE_HOST_DRAM ->
  existsb is_memcmp (trace_of r) = false /\
  exit_code (locals_of r) = EXIT_SUCCESS /\
  (In (Fprintf stdout Msg_SUCCESS) (trace_of r) ->
     In (Fprintf stderr Warn_verify) (trace_of r) /\ outcome_of r = Exit EXIT_SUCCESS) /\
  outcome_of (run (main_body w) (set_verify 0 s)) = outcome_of r.
Proof.
  destruct s. cbv [set_verify]. observe. intros ->. cbv zeta.
  match goal with
  | |- context [outcome_of (run ?p ?s0) = outcome_of _] =>
      remember (run p s0) as r0 eqn:E0
  end.
  match goal with
  | |- context [run ?p ?s] => remember (run p s) as r eqn:E
  end.
  revert E E0. paths.
  all: change (0 =? 0) with true; cbv beta iota; intros ->.
  all: leaf.
  all: try (match goal with H : _ \/ _ |- _ => destruct H; congruence end).
Qed.

(** C4.  With [-X] and a source or destination that is not HOST_DRAM, a run
    makes no comparison and leaves [exit_code] at EXIT_SUCCESS; if it gets
    as far as the verification step (it has printed SUCCESS) it prints the
    warning on the error stream and exits with status 0; and it ends the way
    the same run without [-X] ends. *)
Theorem C4_no_verification_off_host (cl : command_line) :
  let r := main w cl in
  let s := locals_of r in
  verify s <> 0 ->
  type_in s <> OCACCEL_ADDRTYPE_HOST_DRAM \/ type_out s <> OCACCEL_ADDRTYPE_HOST_DRAM ->
  existsb is_memcmp (trace_of r) = false /\
  exit_code s = EXIT_SUCCESS /\
  (In (Fprintf stdout Msg_SUCCESS) (trace_of r) ->
     In (Fprintf stderr Warn_verify) (trace_of r) /\ outcome_of r = Exit EXIT_SUCCESS) /\
  (forall s0, parse_command_line cl init = ([], s0, Next tt) ->
     outcome_of (run (main_body w) (set_verify 0 s0)) = outcome_of r).
Proof.
  destruct (main_cases cl) as [(s0 & Ep & E & Hf)|(t & s & st & Ep & E & Ht & Hf)];
    rewrite E.
  - cbv zeta. intros Hv Hty.
    destruct (body_off_host s0 (proj1 Hf) Hv Hty) as (H1 & H2 & H3 & H4).
    repeat split; try assumption; try (apply H3; assumption).
    intros s1 E1. assert (s1 = s0) as -> by congruence. exact H4.
  - cbn. intros Hv Hty. repeat split.
    + apply help_no_memcmp; auto.
    + apply Hf.
    + exfalso. revert H. apply help_not_in; auto.
    + exfalso. revert H. apply help_not_in; auto.
    + intros s0 E0. congruence.
Qed.

Lemma body_reports (s : locals) :
  exit_code s = EXIT_SUCCESS ->
  reports_success (run (main_body w) s) /\ reports_failures (run (main_body w) s).
Proof.
  unfold reports_success, reports_failures.
  destruct s. observe. intros ->. cbv zeta. name_run r. paths.
  all: leaf.
Qed.

Lemma help_answers t :
  forallb is_help t = true ->
  card_answers t = [] /\ attach_answers t = [] /\ job_answers t = [] /\
  compare_answers t = [] /\ trailing_answers t = [].
Proof.
  induction t as [|e t IH]; [repeat split|]. cbn [forallb]. intros H.
  apply andb_true_iff in H as [He Ht]. destruct (IH Ht) as (H1 & H2 & H3 & H4 & H5).
  destruct e; try discriminate He. cbn. repeat split; assumption.
Qed.

Lemma main_success (cl : command_line) :
  (exists s0, parse_command_line cl init = ([], s0, Next tt)) ->
  reports_success (main w cl).
Proof.
  intros (s1 & E1).
  destruct (main_cases cl) as [(s0 & _ & E & Hf)|(t & s & st & Ep & _)];
    [|congruence].
  rewrite E. apply body_reports, Hf.
Qed.

Lemma main_failures (cl : command_line) : reports_failures (main w cl).
Proof.
  destruct (main_cases cl) as [(s0 & _ & E & Hf)|(t & s & st & _ & E & Ht & _)];
    rewrite E.
  - apply body_reports, Hf.
  - unfold reports_failures. cbn [trace_of outcome_of fst snd].
    destruct (help_answers t Ht) as (-> & -> & -> & -> & ->).
    repeat split; intros; try contradiction;
      repeat match goal with H : In _ [] |- _ => destruct H end.
Qed.

(** C2 (as the code has it).  Once the command line is accepted and the job
    fits, a run in which every call succeeds prints the success marker and
    exits with status 0.  A failed card allocation, attach or job execution
    ends the run with EXIT_FAILURE and its [err:] diagnostic on the error
    stream; a failed trailing-zero comparison ends it with EX_ERR_VERIFY
    (non-zero by hypothesis) and its diagnostic; a failed comparison of
    input and output ends it with EX_ERR_VERIFY. *)
Theorem C2_exit_status_and_diagnostics (cl : command_line) :
  EX_ERR_VERIFY <> 0 ->
  let r := main w cl in
  let t := trace_of r in
  ((exists s0, parse_command_line cl init = ([], s0, Next tt)) ->
   sizeof_helloworld_job <= OCACCEL_JOBSIZE ->
   forallb call_succeeded t = true ->
   In (Fprintf stdout Msg_SUCCESS) t /\ outcome_of r = Exit 0) /\
  (forall d n, In (CardAllocDev d n 0) t ->
     reported_failure r EXIT_FAILURE Err_open_card) /\
  (forall c i, In (AttachAction c i 0) t ->
     reported_failure r EXIT_FAILURE Err_attach) /\
  (forall a j tm rcode rt, In (SyncExecuteJob a j tm rcode rt) t -> rcode <> 0 ->
     reported_failure r EXIT_FAILURE Err_execution) /\
  (forall p n res, In (MemcmpTrailing p n (Some res)) t -> res <> 0 ->
     reported_failure r EX_ERR_VERIFY Err_trailing) /\
  (forall i ob n res p n' res',
     In (MemcmpInOut i ob n (Some res)) t -> res <> 0 ->
     In (MemcmpTrailing p n' (Some res')) t ->
     outcome_of r = Exit EX_ERR_VERIFY).
Proof.
  intros Hex. cbv zeta.
  destruct (main_failures cl) as (Hcard & Hatt & Hexec & _ & Htrail & Hcmp).
  unfold reported_failure. repeat split.
  - apply printed_In. apply (main_success cl H); [apply Z.leb_le|]; assumption.
  - apply (main_success cl H); [apply Z.leb_le|]; assumption.
  - apply Hcard. eapply In_card_answers; eassumption.
  - discriminate.
  - apply printed_In, Hcard. eapply In_card_answers; eassumption.
  - apply Hatt. eapply In_attach_answers; eassumption.
  - discriminate.
  - apply printed_In, Hatt. eapply In_attach_answers; eassumption.
  - eapply Hexec; [eapply In_job_answers; eassumption | apply Z.eqb_neq; assumption].
  - discriminate.
  - apply printed_In. eapply Hexec;
      [eapply In_job_answers; eassumption | apply Z.eqb_neq; assumption].
  - eapply Htrail; [eapply In_trailing_answers; eassumption | apply Z.eqb_neq; assumption].
  - exact Hex.
  - apply printed_In. eapply Htrail;
      [eapply In_trailing_answers; eassumption | apply Z.eqb_neq; assumption].
  - intros i ob n res p n' res' Hc Hres Ht.
    eapply Hcmp;
      [eapply In_compare_answers; eassumption
      |eapply In_trailing_answers; eassumption|].
    apply Z.eqb_neq in Hres. rewrite Hres. reflexivity.
Qed.

Lemma body_trailing (s : locals) fo :
  obuff s = None ->
  let r := run (main_body w) s in
  let s' := locals_of r in
  let t := trace_of r in
  (verify s' =? 0) = false -> output s' = Some fo ->
  (forall blk, obuff s' = Some blk -> 0 <= size s' < 2 ^ 63 ->
     Z.of_nat (length (bytes blk)) = size s' + 1024) /\
  (forall fi, input s' = Some fi -> file_size w fi < 2 ^ 63 ->
     printed stdout Msg_SUCCESS t = true ->
     exists blk res,
       obuff s' = Some blk /\
       Z.of_nat (length (bytes blk)) = size s' + 1024 /\
       In (MemcmpTrailing (base blk + size s') 1024 (Some res)) t /\
       (res = 0 <-> trailing_bytes s' blk = trailing_zeros) /\
       (res <> 0 ->
          printed stderr Err_trailing t = true /\ outcome_of r = Exit EX_ERR_VERIFY)).
Proof.
  destruct s. observe. intros ->. cbv zeta. name_run r. paths.
  all: observe; intros Hv Ho; rewrite ?Hv; tidy; split; intros; in_cases; subst;
    try congruence.
  (* the size of the output buffer *)
  all: try (rewrite ?length_action_stores, length_memset
              by (cbn; apply length_replicate);
            rewrite u64_small; lia).
  (* the runs that compare *)
  all: match goal with
       | Hfs : 0 <= file_size w ?f, Hlt : file_size w ?f < 2 ^ 63 |- _ =>
           destruct (in_out_compare_defined w f (conj Hfs Hlt)) as (res1 & E1);
           destruct (trailing_compare_defined w (file_size w f) (conj Hfs Hlt))
             as (Hlen & res2 & E2 & Hiff);
           unfold input_buffer, output_buffer in E1, E2, Hlen, Hiff
       end.
  all: try congruence.
  all: rewrite Heqo2 in E2; injection E2 as E2; subst res2.
  all: do 2 eexists; split; [reflexivity|]; split; [exact Hlen|].
  all: split; [repeat first [left; reflexivity | right]|].
  all: split; [exact Hiff|].
  all: intros Hne; try congruence; split; reflexivity.
Qed.

(** C3 (as the code has it).  With [-X] and an output file, an allocated
    output buffer has exactly [size + 1024] bytes.  If the input comes from
    a file as well and the run gets as far as the verification step, the
    program compares the 1024 bytes that follow the first [size] bytes of
    the output buffer with zeros; the comparison is zero exactly when they
    are all zero, and if one of them is not, the program prints the
    trailing-zero diagnostic and exits with EX_ERR_VERIFY. *)
Theorem C3_trailing_zero_check (cl : command_line) fo :
  let r := main w cl in
  let s := locals_of r in
  let t := trace_of r in
  verify s <> 0 -> output s = Some fo ->
  (forall blk, obuff s = Some blk -> 0 <= size s < 2 ^ 63 ->
     Z.of_nat (length (bytes blk)) = size s + 1024) /\
  (forall fi, input s = Some fi -> file_size w fi < 2 ^ 63 ->
     In (Fprintf stdout Msg_SUCCESS) t ->
     exists blk res,
       obuff s = Some blk /\
       Z.of_nat (length (bytes blk)) = size s + 1024 /\
       In (MemcmpTrailing (base blk + size s) 1024 (Some res)) t /\
       (res = 0 <-> trailing_bytes s blk = trailing_zeros) /\
       ((exists b, In b (trailing_bytes s blk) /\ b <> Byte.x00) ->
          In (Fprintf stderr Err_trailing) t /\ outcome_of r = Exit EX_ERR_VERIFY)).
Proof.
  destruct (main_cases cl) as [(s0 & _ & E & Hf)|(t & s & st & _ & E & Ht & Hf)];
    rewrite E.
  - cbv zeta. intros Hv Ho. apply Z.eqb_neq in Hv.
    destruct (body_trailing s0 fo (proj2 (proj2 Hf)) Hv Ho) as [H1 H2].
    split; [exact H1|].
    intros fi Hi Hlt Hs. apply printed_In in Hs.
    destruct (H2 fi Hi Hlt Hs) as (blk & res & Hb & Hlen & Hin & Hiff & Herr).
    exists blk, res. repeat split; try assumption; try apply Hiff.
    + apply printed_In, Herr. intros ->. destruct H as (b & Hb1 & Hb2).
      apply (nonzero_not_trailing_zeros _ _ Hb1 Hb2). apply Hiff. reflexivity.
    + apply Herr. intros ->. destruct H as (b & Hb1 & Hb2).
      apply (nonzero_not_trailing_zeros _ _ Hb1 Hb2). apply Hiff. reflexivity.
  - cbn. intros Hv Ho. destruct Hf as (_ & _ & Hob). split.
    + intros blk Hb. congruence.
    + intros fi _ _ Hs. exfalso. revert Hs. apply help_not_in; auto.
Qed.

End Runs.

Section TwoRuns.
Context {hdr : Headers}.
Variables w1 w2 : world.


End TwoRuns.

(** ** The results on concrete runs *)

Ltac find_event := repeat first [left; reflexivity | right].

(** [ocaccel_helloworld -i in -o out] with every collaborator succeeding:
    the action 7 is detached before the card 5 is freed. *)
Lemma C1_witness :
  In (AttachAction 5 1 7) (trace_of run_plain) /\
  7 <> 0 /\
  outcome_of run_plain = Exit 0 /\
  List.filter is_release (trace_of run_plain) = [DetachAction 7; CardFree 5].
Proof.
  assert (In (AttachAction 5 1 7) (trace_of run_plain)) as Hin
    by (vm_compute; find_event).
  assert (7 <> 0) as Hne by discriminate.
  split; [exact Hin|]. split; [exact Hne|]. split; [reflexivity|].
  exact (proj2 (@C1_detach_before_card_free sample_headers uppercase_world cl_in_out)
           5 1 7 0 Hin Hne eq_refl).
Defined.

(** The run that verifies a faithful copy succeeds: marker and status 0. *)
Lemma C2_witness :
  @EX_ERR_VERIFY sample_headers <> 0 /\
  forallb (@call_succeeded sample_headers) (trace_of run_copy) = true /\
  In (Fprintf stdout Msg_SUCCESS) (trace_of run_copy) /\
  outcome_of run_copy = Exit 0.
Proof.
  assert (@EX_ERR_VERIFY sample_headers <> 0) as Hex by discriminate.
  assert (forallb (@call_succeeded sample_headers) (trace_of run_copy) = true)
    as Hall by (vm_compute; reflexivity).
  split; [exact Hex|]. split; [exact Hall|].
  refine (proj1 (@C2_exit_status_and_diagnostics sample_headers copy_world
                  cl_in_out_verify Hex) _ _ Hall).
  - eexists. vm_compute. reflexivity.
  - vm_compute. discriminate.
Defined.

(** The upper-casing action makes the comparison of input and output fail:
    the run exits with EX_ERR_VERIFY and prints no diagnostic at all. *)
Lemma C2_counterexample : ~ failure_is_diagnosed run_uppercase.
Proof.
  intros H.
  assert (existsb step_failed (trace_of run_uppercase) = true) as Hfail
    by (vm_compute; reflexivity).
  assert (diagnostic_printed (trace_of run_uppercase) = false) as Hnone
    by (vm_compute; reflexivity).
  destruct (H Hfail) as [_ Hd]. apply diagnosed_printed in Hd. congruence.
Qed.

(** With an input file too, the byte stored past the data is caught. *)
Lemma C3_witness :
  verify (locals_of run_overrun) <> 0 /\
  output (locals_of run_overrun) = Some "out" /\
  input (locals_of run_overrun) = Some "in" /\
  In (Fprintf stdout Msg_SUCCESS) (trace_of run_overrun) /\
  In (Fprintf stderr Err_trailing) (trace_of run_overrun) /\
  outcome_of run_overrun = Exit 3.
Proof.
  assert (verify (locals_of run_overrun) <> 0) as Hv by (vm_compute; discriminate).
  assert (In (Fprintf stdout Msg_SUCCESS) (trace_of run_overrun)) as Hs
    by (vm_compute; find_event).
  split; [exact Hv|]. split; [reflexivity|]. split; [reflexivity|].
  split; [exact Hs|].
  destruct (proj2 (@C3_trailing_zero_check sample_headers overrun_world
                     cl_in_out_verify "out" Hv eq_refl) "in" eq_refl
              ltac:(vm_compute; reflexivity) Hs)
    as (blk & res & Hb & _ & _ & _ & Herr).
  injection Hb as <-.
  apply Herr. exists Byte.x21.
  split; [vm_compute; find_event | discriminate].
Defined.

(** [ocaccel_helloworld -X -o out -A CARD_DRAM -s 4]: the byte stored past
    the data goes unnoticed, no comparison is made and the status is 0. *)
Lemma C3_counterexample : ~ @trailing_check_always sample_headers run_card_to_file.
Proof.
  intros H.
  assert (outcome_of run_card_to_file = Exit 0) as Hexit
    by (vm_compute; reflexivity).
  destruct (H ltac:(vm_compute; discriminate) ltac:(vm_compute; discriminate)
              ltac:(vm_compute; find_event) _ eq_refl) as (_ & _ & Herr).
  destruct Herr as [_ Ho].
  - exists Byte.x21. split; [vm_compute; find_event | discriminate].
  - rewrite Hexit in Ho. discriminate Ho.
Qed.

(** The same run: the warning is printed and the status is 0. *)
Lemma C4_witness :
  verify (locals_of run_card_to_file) <> 0 /\
  type_in (locals_of run_card_to_file) <> OCACCEL_ADDRTYPE_HOST_DRAM /\
  existsb is_memcmp (trace_of run_card_to_file) = false /\
  In (Fprintf stderr Warn_verify) (trace_of run_card_to_file) /\
  outcome_of run_card_to_file = Exit 0.
Proof.
  assert (verify (locals_of run_card_to_file) <> 0) as Hv
    by (vm_compute; discriminate).
  assert (type_in (locals_of run_card_to_file) <> OCACCEL_ADDRTYPE_HOST_DRAM) as Ht
    by (vm_compute; discriminate).
  destruct (@C4_no_verification_off_host sample_headers overrun_world
              cl_card_to_file Hv (or_introl Ht)) as (Hm & _ & Hw & _).
  split; [exact Hv|]. split; [exact Ht|]. split; [exact Hm|].
  apply Hw. vm_compute. find_event.
Defined.



(** The job of that run ends its chain on the output descriptor only. *)
Lemma C7_witness :
  @OCACCEL_ADDRFLAG_END sample_headers <> 0 /\
  Z.land (@OCACCEL_ADDRFLAG_ADDR sample_headers) (@OCACCEL_ADDRFLAG_END sample_headers) = 0 /\
  Z.land (@OCACCEL_ADDRFLAG_SRC sample_headers) (@OCACCEL_ADDRFLAG_END sample_headers) = 0 /\
  let j := mjob (snd (fst (@ocaccel_prepare_helloworld sample_headers
                             4096 3 OCACCEL_ADDRTYPE_HOST_DRAM
                             8192 3 OCACCEL_ADDRTYPE_HOST_DRAM
                             (@init sample_headers)))) in
  has_flag (job_out j) 16 = true /\ has_flag (job_in j) 16 = false.
Proof.
  assert (@OCACCEL_ADDRFLAG_END sample_headers <> 0) as Hend by discriminate.
  split; [exact Hend|]. split; [reflexivity|]. split; [reflexivity|].
  cbv zeta.
  destruct (@C7_one_end_of_chain sample_headers
              4096 3 OCACCEL_ADDRTYPE_HOST_DRAM 8192 3 OCACCEL_ADDRTYPE_HOST_DRAM
              (@init sample_headers) _ _ Hend eq_refl eq_refl eq_refl)
    as (Hout & Hin & _).
  split; [exact Hout | exact Hin].
Defined.

(** [ocaccel_attach_action] answers NULL in interrupt mode: the NULL action
    is handed to [ocaccel_action_assign_irq]. *)
Lemma C8_witness :
  In (AttachAction 5 1 0) (trace_of run_no_action) /\
  1 <> 0 /\
  In (AssignIrq 0) (trace_of run_no_action).
Proof.
  assert (In (AttachAction 5 1 0) (trace_of run_no_action)) as Hin
    by (vm_compute; find_event).
  assert (1 <> 0) as Hne by discriminate.
  split; [exact Hin|]. split; [exact Hne|].
  exact (@C8_assign_irq_with_null_action sample_headers no_action_world cl_in_out
           5 1 Hin Hne).
Defined.

(** [ocaccel_helloworld -X]: the comparison runs on two NULL pointers. *)
Lemma C9_witness :
  @sizeof_helloworld_job sample_headers <= @OCACCEL_JOBSIZE sample_headers /\
  input (locals_of run_verify_only) = None /\
  output (locals_of run_verify_only) = None /\
  In (MemcmpInOut 0 0 (1024 * 1024) None) (trace_of run_verify_only) /\
  outcome_of run_verify_only = Fault.
Proof.
  assert (@sizeof_helloworld_job sample_headers <= @OCACCEL_JOBSIZE sample_headers)
    as Hsz by (vm_compute; discriminate).
  split; [exact Hsz|].
  refine (@C9_compare_with_null_buffers sample_headers uppercase_world
            Hsz _ _ eq_refl eq_refl); discriminate.
Defined.

(** The files win over [-s 64 -A CARD_DRAM -a 0x1000 -D CARD_DRAM
    -d 0x2000]. *)
Lemma C10_witness :
  input (locals_of run_overridden) = Some "in" /\
  output (locals_of run_overridden) = Some "out" /\
  size (locals_of run_overridden) = 3%Z /\
  type_in (locals_of run_overridden) = OCACCEL_ADDRTYPE_HOST_DRAM /\
  addr_in (locals_of run_overridden) = 4096 /\
  type_out (locals_of run_overridden) = OCACCEL_ADDRTYPE_HOST_DRAM /\
  addr_out (locals_of run_overridden) = 8192.
Proof.
  split; [reflexivity|]. split; [reflexivity|].
  assert (exists a j tmo rcode rt,
            In (SyncExecuteJob a j tmo rcode rt) (trace_of run_overridden))
    as (a & j & tmo & rcode & rt & Hin)
    by (do 5 eexists; vm_compute; find_event).
  destruct (@C10_files_force_host_buffers sample_headers uppercase_world
              cl_overridden a j tmo rcode rt Hin) as [Hi Ho].
  destruct (Hi "in" eq_refl) as (Hs & Hti & _ & Hp & Hai & _).
  destruct (Ho "out" eq_refl) as (Hto & _ & Hq & Hao & _).
  split; [exact Hs|]. split; [exact Hti|].
  split; [rewrite Hai; exact Hp|]. split; [exact Hto|].
  rewrite Hao. exact Hq.
Defined.

(** * Beyond the job protocol: resources, files and the command line *)

Ltac observe_more :=
  cbn [trace_of locals_of outcome_of fst snd
       List.filter is_release is_memcmp setup_failed nonnull rev
       printed card_answers attach_answers job_answers write_answers
       compare_answers trailing_answers flat_map
       mallocs frees card_frees detaches assigned_irqs attach_irqs written
       stderr_lines
       stream_beq message_beq
       In negb orb andb existsb forallb app
       ptr
       job_in job_out addr addr_size addr_type flags win_addr
       rc card_no card action input output timeout size ibuff obuff type_in
       addr_in type_out addr_out verify exit_code action_irq verbose_flag
       cjob mjob set_rc set_card_no set_card set_action set_input set_output
       set_timeout set_size set_ibuff set_obuff set_type_in set_addr_in
       set_type_out set_addr_out set_verify set_exit_code set_action_irq
       set_verbose_flag set_cjob set_mjob] in *.

Ltac tidy_more :=
  cbv [nonnull] in *; observe_more; autorewrite with block in *; use_tests;
  repeat match goal with
    | H : context [0 =? 0] |- _ => change (0 =? 0) with true in H
    | |- context [0 =? 0] => change (0 =? 0) with true
    end;
  cbv beta iota in *; observe_more.

Ltac leaf_more :=
  tidy_more; intros; in_cases; subst; tidy_more; repeat split; intros;
  in_cases; subst; tidy_more; in_cases;
  try reflexivity; try congruence; try contradiction; try lia; try pick;
  try (eexists; reflexivity); try (do 2 eexists; reflexivity).

Section Resources.
Context {hdr : Headers}.
Variable w : world.

(** What every run of [main_body] does with its buffers, its card, its
    action and its output file. *)
Lemma body_resources (s : locals) :
  ibuff s = None -> obuff s = None -> exit_code s = EXIT_SUCCESS ->
  let r := run (main_body w) s in
  let t := trace_of r in
  let s' := locals_of r in
  (forall st, outcome_of r = Exit st ->
     frees t = [ptr (obuff s'); ptr (ibuff s')] /\
     List.filter nonnull (frees t) = rev (List.filter nonnull (mallocs t)) /\
     card_frees t = List.filter nonnull (card_answers t) /\
     detaches t = List.filter nonnull (attach_answers t) /\
     (st = EXIT_SUCCESS \/ st = EXIT_FAILURE \/ st = EX_ERR_VERIFY)) /\
  (existsb setup_failed t = true ->
     card_answers t = [] /\ attach_answers t = [] /\ job_answers t = [] /\
     stderr_lines t = [] /\ outcome_of r = Exit EXIT_FAILURE) /\
  (In 0 (card_answers t) -> attach_answers t = [] /\ job_answers t = []) /\
  (In 0 (attach_answers t) -> job_answers t = []) /\
  (forall a rcode rt, In (a, rcode, rt) (job_answers t) -> (rcode =? 0) = false ->
     written t = [] /\ existsb is_memcmp t = false) /\
  ((action_irq s =? 0) = true ->
     assigned_irqs t = [] /\ forallb (fun irq => irq =? 0) (attach_irqs t) = true) /\
  ((action_irq s =? 0) = false -> assigned_irqs t = attach_answers t) /\
  (forall f d, In (f, d) (written t) ->
     output s' = Some f /\
     (exists blk, obuff s' = Some blk /\
                  d = take (Z.to_nat (size s')) (bytes blk)) /\
     exists a rt, In (a, 0, rt) (job_answers t)) /\
  (forall a rt f, In (a, 0, rt) (job_answers t) -> output s' = Some f ->
     exists d, written t = [(f, d)]) /\
  ((sizeof_helloworld_job <=? OCACCEL_JOBSIZE) = true -> outcome_of r <> Abort) /\
  ((verify s =? 0) = true ->
     outcome_of r <> Fault /\ existsb is_memcmp t = false /\
     forall st, outcome_of r = Exit st -> st = EXIT_SUCCESS \/ st = EXIT_FAILURE).
Proof.
  destruct s. observe_more. intros -> -> ->. cbv zeta. name_run r. paths.
  all: leaf_more.
  all: try match goal with
         | |- exists a rt, (?x, _, ?y) = _ \/ _ => exists x, y; left; congruence
         end.
Qed.

(** One option: either it stops the program with one message, or it
    updates the locals and lets the loop go on. *)
Lemma getopt_case_stops ch s :
  match stops ch with
  | Some (m, st) => getopt_case ch s = ([Fprintf stdout m], s, Stop (Exit st))
  | None =>
      exists s', getopt_case ch s = ([], s', Next tt) /\
        action_irq s' = (if is_Opt_N ch then 0 else action_irq s) /\
        verify s' = verify s + (if is_Opt_X ch then 1 else 0)
  end.
Proof.
  destruct ch; cbn [stops getopt_case is_Opt_N is_Opt_X];
    try reflexivity;
    try (eexists; split; [reflexivity|]; destruct s; cbn; split; [reflexivity|lia]).
  all: unfold is_space_name;
    destruct (String.eqb space "CARD_DRAM"); cbn [orb negb];
    [eexists; split; [reflexivity|]; destruct s; cbn; split; [reflexivity|lia]|];
    destruct (String.eqb space "HOST_DRAM"); cbn [orb negb];
    [eexists; split; [reflexivity|]; destruct s; cbn; split; [reflexivity|lia]
    |reflexivity].
Qed.

(** The option loop stops at the first option that stops it; otherwise it
    ends with [action_irq] cleared by any [-N] and [verify] counting the
    [-X]. *)
Lemma getopt_loop_first_stop chs : forall s,
  match first_stop chs with
  | Some (m, st) =>
      exists s', getopt_loop chs s = ([Fprintf stdout m], s', Stop (Exit st))
  | None =>
      exists s', getopt_loop chs s = ([], s', Next tt) /\
        action_irq s' = (if existsb is_Opt_N chs then 0 else action_irq s) /\
        verify s' = verify s + Z.of_nat (length (List.filter is_Opt_X chs))
  end.
Proof.
  induction chs as [|ch rest IH]; intros s.
  - cbn. exists s. repeat split. lia.
  - change (getopt_loop (ch :: rest) s)
      with (bind (getopt_case ch) (fun _ => getopt_loop rest) s).
    unfold bind. cbn [first_stop existsb List.filter].
    pose proof (getopt_case_stops ch s) as Hc.
    destruct (stops ch) as [[m st]|].
    + rewrite Hc. exists s. reflexivity.
    + destruct Hc as (s1 & -> & Hi & Hv). specialize (IH s1).
      destruct (first_stop rest) as [[m st]|].
      * destruct IH as (s' & ->). exists s'. reflexivity.
      * destruct IH as (s' & -> & Hi' & Hv'). exists s'.
        split; [reflexivity|]. rewrite Hi', Hv', Hi, Hv.
        destruct (is_Opt_N ch), (is_Opt_X ch), (existsb is_Opt_N rest);
          cbn [orb length]; split; try reflexivity; lia.
Qed.

(** The whole of the command-line check: the first stopping option, then
    the stray operands and the empty command line. *)
Lemma parse_first_stop (cl : command_line) :
  match first_stop (options cl) with
  | Some (m, st) =>
      exists s, parse_command_line cl init = ([Fprintf stdout m], s, Stop (Exit st))
  | None =>
      if negb (operands cl =? 0) || (argc cl =? 1)
      then exists s, parse_command_line cl init =
                     ([Fprintf stdout Msg_usage], s, Stop (Exit EXIT_FAILURE))
      else exists s0, parse_command_line cl init = ([], s0, Next tt) /\
             action_irq s0 =
               (if existsb is_Opt_N (options cl) then 0
                else OCACCEL_ACTION_DONE_IRQ) /\
             verify s0 = Z.of_nat (length (List.filter is_Opt_X (options cl)))
  end.
Proof.
  pose proof (getopt_loop_first_stop (options cl) init) as H.
  unfold parse_command_line, bind.
  destruct (first_stop (options cl)) as [[m st]|].
  - destruct H as (s' & ->). exists s'. reflexivity.
  - destruct H as (s' & -> & Hi & Hv). cbv beta iota.
    destruct (operands cl =? 0); cbn.
    + destruct (argc cl =? 1); cbn.
      * exists s'. reflexivity.
      * exists s'. split; [reflexivity|]. split; [exact Hi | exact Hv].
    + exists s'. reflexivity.
Qed.

Lemma stops_status ch m st :
  stops ch = Some (m, st) -> st = EXIT_SUCCESS \/ st = EXIT_FAILURE.
Proof.
  destruct ch; cbn; try discriminate; try (intros [= <- <-]; auto).
  all: destruct (is_space_name space); try discriminate; intros [= <- <-]; auto.
Qed.

Lemma first_stop_status chs m st :
  first_stop chs = Some (m, st) -> st = EXIT_SUCCESS \/ st = EXIT_FAILURE.
Proof.
  induction chs as [|ch rest IH]; [discriminate|]. cbn.
  destruct (stops ch) as [[m' st']|] eqn:Es; [|exact IH].
  intros [= -> ->]. exact (stops_status _ _ _ Es).
Qed.

(** [main] either goes on from fresh locals with what the options left in
    [action_irq] and [verify], or ends after one message on [stdout] with
    status 0 or 1. *)
Lemma main_resources (cl : command_line) :
  (exists s0, parse_command_line cl init = ([], s0, Next tt) /\
              main w cl = run (main_body w) s0 /\ fresh s0 /\
              action_irq s0 =
                (if existsb is_Opt_N (options cl) then 0
                 else OCACCEL_ACTION_DONE_IRQ) /\
              verify s0 = Z.of_nat (length (List.filter is_Opt_X (options cl)))) \/
  (exists m s status,
     parse_command_line cl init = ([Fprintf stdout m], s, Stop (Exit status)) /\
     main w cl = ([Fprintf stdout m], s, Exit status) /\ fresh s /\
     (status = EXIT_SUCCESS \/ status = EXIT_FAILURE)).
Proof.
  pose proof (parse_first_stop cl) as H.
  destruct (main_cases w cl) as [(s0 & Ep & E & Hf)|(t & s & st & Ep & E & Ht & Hf)].
  - left. exists s0. repeat split; try assumption; try apply Hf.
    all: destruct (first_stop (options cl)) as [[m st']|];
      [destruct H as (? & H); congruence|];
      destruct (negb (operands cl =? 0) || (argc cl =? 1));
      [destruct H as (? & H); congruence|];
      destruct H as (s1 & E1 & Hi & Hv);
      assert (s1 = s0) as -> by congruence; assumption.
  - right.
    destruct (first_stop (options cl)) as [[m st']|] eqn:Efs.
    + destruct H as (s' & H). rewrite H in Ep. injection Ep as <- <- <-.
      exists m, s', st'. repeat split; try assumption; try apply Hf.
      exact (first_stop_status _ _ _ Efs).
    + destruct (negb (operands cl =? 0) || (argc cl =? 1)).
      * destruct H as (s' & H). rewrite H in Ep. injection Ep as <- <- <-.
        exists Msg_usage, s', EXIT_FAILURE.
        repeat split; try assumption; try apply Hf. auto.
      * destruct H as (s1 & E1 & _). congruence.
Qed.

End Resources.

(** ** What every run of [main] does with its resources *)

Lemma existsb_filter_nil {A} (f : A -> bool) (l : list A) :
  existsb f l = false -> List.filter f l = [].
Proof.
  induction l as [|a l IH]; [reflexivity|]. cbn.
  destruct (f a); [discriminate|]. exact IH.
Qed.

Lemma In_assigned_irqs a t : In (AssignIrq a) t -> In a (assigned_irqs t).
Proof.
  intros H. unfold assigned_irqs. apply in_flat_map.
  eexists; split; [exact H | left; reflexivity].
Qed.

Lemma In_attach_irqs c i p t : In (AttachAction c i p) t -> In i (attach_irqs t).
Proof.
  intros H. unfold attach_irqs. apply in_flat_map.
  eexists; split; [exact H | left; reflexivity].
Qed.

Section Extras.
Context {hdr : Headers}.
Variable w : world.

Ltac main_or_message cl B :=
  let s0 := fresh "s0" in
  let m := fresh "m" in
  let s := fresh "s" in
  let st := fresh "status" in
  destruct (main_resources w cl)
    as [(s0 & _ & -> & (Hx & Hi & Ho) & Hirq & Hver)|(m & s & st & Hrej & -> & _ & Hst)];
  [pose proof (body_resources w s0 Hi Ho Hx) as B; cbv zeta in B|].

(** X1.  The first option that stops the program decides how a rejected
    command line ends: [-V] prints the version and [-h] the usage, both with
    status 0; an unknown option and a memory space other than CARD_DRAM and
    HOST_DRAM print the usage with EXIT_FAILURE.  When no option stops it,
    a stray operand or an empty command line prints the usage with
    EXIT_FAILURE.  In each of these cases the message is the only thing the
    program does; otherwise [main] goes on with the parsed locals. *)
Theorem X1_rejected_command_line (cl : command_line) :
  match first_stop (options cl) with
  | Some (m, st) =>
      trace_of (main w cl) = [Fprintf stdout m] /\ outcome_of (main w cl) = Exit st
  | None =>
      if negb (operands cl =? 0) || (argc cl =? 1)
      then trace_of (main w cl) = [Fprintf stdout Msg_usage] /\
           outcome_of (main w cl) = Exit EXIT_FAILURE
      else exists s0, parse_command_line cl init = ([], s0, Next tt) /\
                      main w cl = run (main_body w) s0
  end.
Proof.
  pose proof (parse_first_stop cl) as H.
  unfold main, main_prog, run, bind.
  destruct (first_stop (options cl)) as [[m st]|].
  - destruct H as (s & ->). split; reflexivity.
  - destruct (negb (operands cl =? 0) || (argc cl =? 1)).
    + destruct H as (s & ->). split; reflexivity.
    + destruct H as (s0 & E & _). exists s0. split; [exact E|].
      rewrite E. cbv beta iota.
      destruct (main_body w s0) as [[t s'] [u|o]]; reflexivity.
Qed.

(** X2.  With [-N] anywhere on the command line the action is attached
    without an interrupt flag and [ocaccel_action_assign_irq] is never
    called. *)
Theorem X2_polling_mode (cl : command_line) :
  existsb is_Opt_N (options cl) = true ->
  (forall a, ~ In (AssignIrq a) (trace_of (main w cl))) /\
  (forall c irq p, In (AttachAction c irq p) (trace_of (main w cl)) -> irq = 0).
Proof.
  intros HN. main_or_message cl B.
  - rewrite HN in Hirq.
    destruct B as (_ & _ & _ & _ & _ & B & _).
    destruct B as [Ha Hq]; [rewrite Hirq; reflexivity|]. split.
    + intros a Hin. apply In_assigned_irqs in Hin. rewrite Ha in Hin. exact Hin.
    + intros c irq p Hin. apply In_attach_irqs in Hin.
      rewrite forallb_forall in Hq. apply Z.eqb_eq, Hq, Hin.
  - cbn. split.
    + intros a [H|[]]. discriminate H.
    + intros c irq p [H|[]]. discriminate H.
Qed.

(** X3.  On every run that ends in [exit], the buffers are freed in the
    reverse order of their allocation and each allocated buffer exactly
    once; once the command line is accepted, [__free] is called on [obuff]
    and then on [ibuff], NULL or not. *)
Theorem X3_buffers_freed_once (cl : command_line) (st : Z) :
  outcome_of (main w cl) = Exit st ->
  List.filter nonnull (frees (trace_of (main w cl))) =
    rev (List.filter nonnull (mallocs (trace_of (main w cl)))) /\
  ((exists s0, parse_command_line cl init = ([], s0, Next tt)) ->
   frees (trace_of (main w cl)) =
     [ptr (obuff (locals_of (main w cl))); ptr (ibuff (locals_of (main w cl)))]).
Proof.
  main_or_message cl B.
  - intros E. destruct B as (B & _). destruct (B st E) as (B1 & B2 & _).
    split; [exact B2 | intros _; exact B1].
  - intros _. split; [reflexivity|]. intros (s1 & E1). congruence.
Qed.

(** X4.  On every run that ends in [exit], [ocaccel_card_free] is called
    exactly for the card that was opened and [ocaccel_detach_action] exactly
    for the action that was attached: a NULL answer is never released and a
    handle never leaks, whichever error path is taken. *)
Theorem X4_handles_released_once (cl : command_line) (st : Z) :
  outcome_of (main w cl) = Exit st ->
  card_frees (trace_of (main w cl)) =
    List.filter nonnull (card_answers (trace_of (main w cl))) /\
  detaches (trace_of (main w cl)) =
    List.filter nonnull (attach_answers (trace_of (main w cl))).
Proof.
  main_or_message cl B.
  - intros E. destruct B as (B & _). destruct (B st E) as (_ & _ & B3 & B4 & _).
    split; assumption.
  - intros _. split; reflexivity.
Qed.

(** X5.  When the buffer setup fails (a negative file size, a NULL from
    [ocaccel_malloc] or a negative result of [__file_read]) [main] goes
    straight to [out_error]: the card is never opened, no action is
    attached, no job is run, [main] makes no [fprintf] to the error stream
    of its own (whatever is reported is the failing helper's doing), and the
    status is EXIT_FAILURE. *)
Theorem X5_setup_failure_stops_before_card (cl : command_line) (e : event) :
  In e (trace_of (main w cl)) -> setup_failed e = true ->
  card_answers (trace_of (main w cl)) = [] /\
  attach_answers (trace_of (main w cl)) = [] /\
  job_answers (trace_of (main w cl)) = [] /\
  stderr_lines (trace_of (main w cl)) = [] /\
  outcome_of (main w cl) = Exit EXIT_FAILURE.
Proof.
  intros Hin He.
  assert (existsb setup_failed (trace_of (main w cl)) = true) as Hex.
  { apply existsb_exists. exists e. split; assumption. }
  revert Hex. clear Hin. main_or_message cl B.
  - intros Hex. destruct B as (_ & B & _). exact (B Hex).
  - cbn. discriminate.
Qed.

(** X6.  Once the card or the action could not be had, nothing further is
    asked of the device: after a NULL card no action is attached, and after
    a NULL card or a NULL action no job is run. *)
Theorem X6_failed_acquisition_stops (cl : command_line) :
  (In 0 (card_answers (trace_of (main w cl))) ->
     attach_answers (trace_of (main w cl)) = [] /\
     job_answers (trace_of (main w cl)) = []) /\
  (In 0 (attach_answers (trace_of (main w cl))) ->
     job_answers (trace_of (main w cl)) = []).
Proof.
  main_or_message cl B.
  - destruct B as (_ & _ & B1 & B2 & _). split; assumption.
  - cbn. split; intros [].
Qed.

(** X7.  A job that [ocaccel_action_sync_execute_job] reports as failed
    leaves no output file and is never verified. *)
Theorem X7_failed_job_writes_nothing (cl : command_line) (a rcode rt : Z) :
  In (a, rcode, rt) (job_answers (trace_of (main w cl))) -> rcode <> 0 ->
  written (trace_of (main w cl)) = [] /\
  existsb is_memcmp (trace_of (main w cl)) = false.
Proof.
  main_or_message cl B.
  - intros Hin Hne. destruct B as (_ & _ & _ & _ & B & _).
    apply (B a rcode rt Hin). apply Z.eqb_neq. exact Hne.
  - cbn. intros [].
Qed.

(** X8.  A file is written only after a job that returned 0, and it is the
    file named by [-o]; when [size] is not negative, the bytes handed to
    [__file_write] are the first [size] bytes of the output buffer.  A
    negative [size], which only [-s] can give, is passed on as the length
    as it is: nothing is said here of the bytes of such a call. *)
Theorem X8_written_file (cl : command_line) (f : string) (d : list byte) :
  In (f, d) (written (trace_of (main w cl))) ->
  output (locals_of (main w cl)) = Some f /\
  (0 <= size (locals_of (main w cl)) ->
   exists blk, obuff (locals_of (main w cl)) = Some blk /\
     d = take (Z.to_nat (size (locals_of (main w cl)))) (bytes blk)) /\
  exists a rt, In (a, 0, rt) (job_answers (trace_of (main w cl))).
Proof.
  main_or_message cl B.
  - intros Hin. destruct B as (_ & _ & _ & _ & _ & _ & _ & B & _).
    destruct (B f d Hin) as (B1 & B2 & B3).
    split; [exact B1|]. split; [intros _; exact B2 | exact B3].
  - cbn. intros [].
Qed.

(** X9.  Whenever the job returned 0 and an output file was named, the
    file is written, exactly once: also when the action's return code then
    turns out to be a failure, and before any verification. *)
Theorem X9_output_written_before_retc (cl : command_line) (a rt : Z) (f : string) :
  In (a, 0, rt) (job_answers (trace_of (main w cl))) ->
  output (locals_of (main w cl)) = Some f ->
  exists d, written (trace_of (main w cl)) = [(f, d)].
Proof.
  main_or_message cl B.
  - intros Hin Ho'. destruct B as (_ & _ & _ & _ & _ & _ & _ & _ & B & _).
    exact (B a rt f Hin Ho').
  - cbn. intros [].
Qed.

(** X10.  [main] exits with one of three statuses: EXIT_SUCCESS,
    EXIT_FAILURE or EX_ERR_VERIFY. *)
Theorem X10_exit_statuses (cl : command_line) (st : Z) :
  outcome_of (main w cl) = Exit st ->
  st = EXIT_SUCCESS \/ st = EXIT_FAILURE \/ st = EX_ERR_VERIFY.
Proof.
  main_or_message cl B.
  - intros E. destruct B as (B & _). destruct (B st E) as (_ & _ & _ & _ & B5).
    exact B5.
  - cbn. intros [= <-]. destruct Hst; auto.
Qed.

(** X11.  The size assertion of [ocaccel_prepare_helloworld] is the only
    way [main] aborts: when the job structure fits the job window, no run
    aborts. *)
Theorem X11_fitting_job_never_aborts (cl : command_line) :
  sizeof_helloworld_job <= OCACCEL_JOBSIZE ->
  outcome_of (main w cl) <> Abort.
Proof.
  intros Hfit. main_or_message cl B.
  - destruct B as (_ & _ & _ & _ & _ & _ & _ & _ & _ & B & _).
    apply B. apply Z.leb_le. exact Hfit.
  - cbn. discriminate.
Qed.

(** X12.  Without [-X] no buffer is ever compared, so no run faults, and
    the status is EXIT_SUCCESS or EXIT_FAILURE. *)
Theorem X12_no_verify_no_fault (cl : command_line) :
  existsb is_Opt_X (options cl) = false ->
  outcome_of (main w cl) <> Fault /\
  existsb is_memcmp (trace_of (main w cl)) = false /\
  forall st, outcome_of (main w cl) = Exit st ->
             st = EXIT_SUCCESS \/ st = EXIT_FAILURE.
Proof.
  intros HX. main_or_message cl B.
  - rewrite (existsb_filter_nil _ _ HX) in Hver. cbn in Hver.
    destruct B as (_ & _ & _ & _ & _ & _ & _ & _ & _ & _ & B).
    apply B. rewrite Hver. reflexivity.
  - cbn. repeat split; [discriminate|]. intros st' [= <-]. exact Hst.
Qed.

End Extras.

(** ** The verdict of the verification *)

Lemma in_out_compare_zero w f res :
  0 <= file_size w f < 2 ^ 63 ->
  memcmp (view (Some (input_buffer w f)) 0)
         (view (Some (output_buffer w (file_size w f + 1024))) 0)
         (u64 (file_size w f)) = Some res ->
  (res = 0 <->
   take (Z.to_nat (file_size w f)) (bytes (input_buffer w f)) =
   take (Z.to_nat (file_size w f)) (bytes (output_buffer w (file_size w f + 1024)))).
Proof.
  intros Hfs.
  rewrite !view_defined by lia. cbn [Z.to_nat drop].
  rewrite (u64_small (file_size w f)) by lia.
  destruct (memcmp_defined (bytes (input_buffer w f))
              (bytes (output_buffer w (file_size w f + 1024))) (file_size w f))
    as (res' & E & Hiff).
  - lia.
  - rewrite length_input_buffer. lia.
  - rewrite length_output_buffer, u64_small; lia.
  - intros Hm.
    change (memcmp (Some (bytes (input_buffer w f)))
              (Some (bytes (output_buffer w (file_size w f + 1024))))
              (file_size w f) = Some res) in Hm.
    rewrite E in Hm. injection Hm as <-. exact Hiff.
Qed.

(** A byte found in the buffer after the action's stores was there before
    or was stored at that very place. *)
Lemma lookup_stores (stores : list (nat * byte)) : forall (l : list byte) i b,
  fold_left (fun l st => <[fst st := snd st]> l) stores l !! i = Some b ->
  l !! i = Some b \/ In (i, b) stores.
Proof.
  induction stores as [|[j c] rest IH]; intros l i b; cbn [fold_left fst snd].
  - auto.
  - intros H. destruct (IH _ _ _ H) as [H'|H']; [|right; right; exact H'].
    apply list_lookup_insert_Some in H' as [(-> & -> & _)|(_ & H')].
    + right. left. reflexivity.
    + left. exact H'.
Qed.

(** The output buffer is zeroed before the job: a byte other than zero in
    it was stored by the action. *)
Lemma output_buffer_store w n i b :
  bytes (output_buffer w n) !! i = Some b -> b <> Byte.x00 ->
  In (i, b) (job_stores w).
Proof.
  unfold output_buffer, action_stores, memset. cbn [bytes].
  intros H Hb. apply lookup_stores in H as [H|H]; [|exact H].
  rewrite drop_replicate, Nat.sub_diag, app_nil_r in H.
  apply lookup_replicate in H as [-> _]. contradiction.
Qed.

Lemma trailing_overrun w fs :
  0 <= fs < 2 ^ 63 ->
  take 1024 (drop (Z.to_nat fs) (bytes (output_buffer w (fs + 1024))))
    <> trailing_zeros ->
  exists i b, In (i, b) (job_stores w) /\
              fs <= Z.of_nat i < fs + 1024 /\ b <> Byte.x00.
Proof.
  intros Hfs Hne.
  set (l := take 1024 (drop (Z.to_nat fs) (bytes (output_buffer w (fs + 1024))))) in *.
  assert (length l = 1024%nat) as Hlen.
  { unfold l. rewrite length_take, length_drop, length_output_buffer, u64_small by lia.
    lia. }
  destruct (List.Forall_Exists_dec (fun b => b = Byte.x00)
              (fun b => Byte.byte_eq_dec b Byte.x00) l) as [Hall|Hex].
  - exfalso. apply Hne. unfold trailing_zeros. rewrite <- Hlen.
    symmetry. apply replicate_as_Forall. split; [reflexivity|].
    eapply Forall_impl; [exact Hall|]. cbn. auto.
  - apply Exists_exists in Hex as (b & Hin & Hb).
    apply list_elem_of_lookup in Hin as (j & Hj).
    unfold l in Hj. apply lookup_take_Some in Hj as [Hj Hlt].
    rewrite lookup_drop in Hj.
    exists (Z.to_nat fs + j)%nat, b. split; [|split; [lia|exact Hb]].
    exact (output_buffer_store _ _ _ _ Hj Hb).
Qed.

Section Verdict.
Context {hdr : Headers}.
Variable w : world.

Lemma body_verdict (s : locals) fi fo :
  ibuff s = None -> obuff s = None -> exit_code s = EXIT_SUCCESS ->
  let r := run (main_body w) s in
  let s' := locals_of r in
  let t := trace_of r in
  (verify s' =? 0) = false -> input s' = Some fi -> output s' = Some fo ->
  file_size w fi < 2 ^ 63 ->
  outcome_of r <> Fault /\
  (printed stdout Msg_SUCCESS t = true ->
   0 <= file_size w fi /\
   size s' = file_size w fi /\
   ibuff s' = Some (input_buffer w fi) /\
   obuff s' = Some (output_buffer w (file_size w fi + 1024)) /\
   exists r1 r2,
     compare_answers t = [Some r1] /\ trailing_answers t = [Some r2] /\
     (r1 = 0 <->
      take (Z.to_nat (file_size w fi)) (bytes (input_buffer w fi)) =
      take (Z.to_nat (file_size w fi))
        (bytes (output_buffer w (file_size w fi + 1024)))) /\
     (r2 = 0 <->
      take 1024 (drop (Z.to_nat (file_size w fi))
                   (bytes (output_buffer w (file_size w fi + 1024))))
        = trailing_zeros) /\
     printed stderr Err_trailing t = negb (r2 =? 0) /\
     outcome_of r =
       Exit (if (r1 =? 0) && (r2 =? 0) then EXIT_SUCCESS else EX_ERR_VERIFY)) /\
  (printed stderr Err_trailing t = true -> printed stdout Msg_SUCCESS t = true).
Proof.
  destruct s. observe. intros -> -> ->. cbv zeta. name_run r. paths.
  all: observe; intros Hv Hi Ho Hlt; rewrite ?Hv; tidy; in_cases; subst;
    try congruence.
  all: try (split; [discriminate|]; split; intros; in_cases; congruence).
  all: match goal with
       | Hfs : 0 <= file_size w ?f, Hlt : file_size w ?f < 2 ^ 63 |- _ =>
           pose proof (in_out_compare_zero w f) as Z1;
           destruct (in_out_compare_defined w f (conj Hfs Hlt)) as (res1 & E1);
           destruct (trailing_compare_defined w (file_size w f) (conj Hfs Hlt))
             as (Hlen & res2 & E2 & Hiff);
           specialize (Z1 res1 (conj Hfs Hlt) E1);
           unfold input_buffer, output_buffer in E1, E2, Hlen, Hiff, Z1 |- *
       end.
  all: try congruence.
  all: repeat match goal with
         | H : memcmp ?a ?b ?n = Some ?x, E : memcmp ?a ?b ?n = Some ?y |- _ =>
             rewrite H in E; injection E as E; subst y
         end.
  all: split; [discriminate|]; split; [intros _|reflexivity].
  all: split; [assumption|].
  all: split; [reflexivity|]; split; [reflexivity|]; split; [reflexivity|].
  all: do 2 eexists; split; [reflexivity|]; split; [reflexivity|].
  all: split; [exact Z1|]; split; [exact Hiff|].
  all: repeat match goal with
         | H : ?x <> 0 |- context [?x =? 0] => rewrite (proj2 (Z.eqb_neq x 0) H)
         | H : ?x = 0 |- context [?x =? 0] => rewrite (proj2 (Z.eqb_eq x 0) H)
         end.
  all: split; reflexivity.
Qed.

(** X13.  The verdict of [-X] on a run with an input and an output file.
    No such run faults.  If it gets to the verification, the buffers are
    the zero-padded file contents and the zeroed buffer with the action's
    stores, and the status is EXIT_SUCCESS exactly when the first [size]
    bytes of both agree and the 1024 bytes after them are zero; otherwise
    it is EX_ERR_VERIFY. *)
Theorem X13_verification_verdict (cl : command_line) (fi fo : string) :
  let r := main w cl in
  let s := locals_of r in
  let t := trace_of r in
  verify s <> 0 -> input s = Some fi -> output s = Some fo ->
  file_size w fi < 2 ^ 63 ->
  outcome_of r <> Fault /\
  (In (Fprintf stdout Msg_SUCCESS) t ->
   size s = file_size w fi /\
   ibuff s = Some (input_buffer w fi) /\
   obuff s = Some (output_buffer w (file_size w fi + 1024)) /\
   (verified w fi -> outcome_of r = Exit EXIT_SUCCESS) /\
   (~ verified w fi -> outcome_of r = Exit EX_ERR_VERIFY)).
Proof.
  destruct (main_cases w cl) as [(s0 & _ & E & Hx & Hi & Ho)|(t & s & st & _ & E & Ht & Hf)];
    rewrite E.
  - cbv zeta. intros Hv Hin Hout Hlt. apply Z.eqb_neq in Hv.
    destruct (body_verdict s0 fi fo Hi Ho Hx Hv Hin Hout Hlt) as (H1 & H2 & _).
    split; [exact H1|]. intros Hs. apply printed_In in Hs.
    destruct (H2 Hs) as (_ & Hsz & Hib & Hob & r1 & r2 & _ & _ & Z1 & Z2 & _ & Hout').
    repeat split; try assumption.
    + intros [V1 V2]. rewrite Hout'.
      rewrite (proj2 (Z.eqb_eq r1 0) (proj2 Z1 V1)).
      rewrite (proj2 (Z.eqb_eq r2 0) (proj2 Z2 V2)). reflexivity.
    + intros Hnv. rewrite Hout'.
      destruct (Z.eqb_spec r1 0) as [R1|R1]; [|reflexivity].
      destruct (Z.eqb_spec r2 0) as [R2|R2]; [|reflexivity].
      exfalso. apply Hnv. split; [apply Z1, R1 | apply Z2, R2].
  - cbn. intros _ _ _ _. split; [discriminate|].
    intros Hs. exfalso. revert Hs. apply help_not_in; auto.
Qed.

(** X14.  The trailing-zero diagnostic is never a false alarm: the output
    buffer is zeroed over [size + 1024] bytes before the job, so when the
    diagnostic is printed the action did store a byte other than zero at
    an offset from [size] to [size + 1023]. *)
Theorem X14_trailing_diagnostic_is_an_overrun (cl : command_line) (fi fo : string) :
  let r := main w cl in
  let s := locals_of r in
  let t := trace_of r in
  verify s <> 0 -> input s = Some fi -> output s = Some fo ->
  file_size w fi < 2 ^ 63 ->
  In (Fprintf stderr Err_trailing) t ->
  exists i b, In (i, b) (job_stores w) /\
              size s <= Z.of_nat i < size s + 1024 /\ b <> Byte.x00.
Proof.
  destruct (main_cases w cl) as [(s0 & _ & E & Hx & Hi & Ho)|(t & s & st & _ & E & Ht & Hf)];
    rewrite E.
  - cbv zeta. intros Hv Hin Hout Hlt Herr. apply Z.eqb_neq in Hv.
    apply printed_In in Herr.
    destruct (body_verdict s0 fi fo Hi Ho Hx Hv Hin Hout Hlt) as (_ & H2 & H3).
    destruct (H2 (H3 Herr)) as (Hge & Hsz & _ & _ & r1 & r2 & _ & Ht2 & _ & Z2 & Hp & _).
    rewrite Hsz.
    apply trailing_overrun; [lia|].
    intros Hz. apply Z2 in Hz. rewrite Herr in Hp. subst r2. discriminate Hp.
  - cbn. intros _ _ _ _ Hs. exfalso. revert Hs. apply help_not_in; auto.
Qed.

End Verdict.

(** * The test script *)

Section ScriptRuns.
Import Script.
Local Open Scope script_scope.
Variable tl : tools.

Lemma perf_calls_app t t' : perf_calls (t ++ t') = perf_calls t ++ perf_calls t'.
Proof. apply flat_map_app. Qed.

Lemma maint_calls_app t t' : maint_calls (t ++ t') = maint_calls t ++ maint_calls t'.
Proof. apply flat_map_app. Qed.

Lemma says_test_ok_app t t' :
  says_test_ok (t ++ t') = says_test_ok t || says_test_ok t'.
Proof. apply existsb_app. Qed.

Lemma sbind_sret {A B} (a : A) (k : A -> script B) : sbind (sret a) k = k a.
Proof. unfold sbind, sret. destruct (k a) as [t r]. reflexivity. Qed.

Lemma sbind_assoc {A B C} (m : script A) (f : A -> script B) (g : B -> script C) :
  sbind (sbind m f) g = sbind m (fun x => sbind (f x) g).
Proof.
  destruct m as [t [a|e]]; [|reflexivity]. cbn.
  destruct (f a) as [t' [b|e']]; [|reflexivity]. cbn.
  destruct (g b) as [t'' r]. rewrite app_assoc. reflexivity.
Qed.

Lemma s64_small z : - 2 ^ 63 <= z < 2 ^ 63 -> s64 z = z.
Proof. intros H. unfold s64. rewrite Z.mod_small; lia. Qed.

Lemma tests_ok_bind n n' card (m k : script unit) :
  tests_ok tl n card m -> tests_ok tl n' card k ->
  tests_ok tl (n + n') card (m ;; k).
Proof.
  destruct m as [t [[]|e]], k as [t' r']; unfold tests_ok; cbn [fst snd sbind].
  - intros (M1 & M2 & M3 & M4 & M5 & M6) (K1 & K2 & K3 & K4 & K5).
    rewrite maint_calls_app, says_test_ok_app, perf_calls_app, !forallb_app.
    rewrite M1, M2, M3, M4, K1, K2, K3, K4. repeat split.
    destruct r' as [[]|e'].
    + destruct K5 as [K5 K6]. rewrite M5, K5, length_app, M6, K6. split; reflexivity.
    + destruct K5 as (-> & l & c & K5 & K6 & K7). split; [reflexivity|].
      exists (perf_calls t ++ l), c. rewrite K5, app_assoc, forallb_app, M5, K6.
      repeat split. exact K7.
  - intros M _. exact M.
Qed.

Lemma tests_ok_echo card st l :
  says_test_ok [Echo st l] = false -> tests_ok tl 0 card (echo st l).
Proof. intros H. unfold tests_ok. cbn [fst snd echo run_cmd]. rewrite H. repeat split. Qed.

Lemma tests_ok_test (v : vars) num size length idn :
  in_sweep (pattern size length idn) = true ->
  tests_ok tl 1 (ocaccel_card v) (test_perf_test tl v num size length idn).
Proof.
  intros Hin. unfold test_perf_test, tests_ok, echo, run_cmd, sexit.
  destruct (perf_status tl (ocaccel_card v) num (pattern size length idn) =? 0) eqn:E;
    cbn; unfold on_card, answered, passed, call_card, call_num, call_pattern,
      call_status; cbn [fst snd];
    rewrite Hin, String.eqb_refl, Z.eqb_refl; repeat split.
  - rewrite E. reflexivity.
  - eexists [], _. cbn. repeat split. unfold passed, call_status. cbn. exact E.
Qed.

Lemma in_sweep_patterns id :
  0 <= id < 16 ->
  in_sweep (pattern 2 255 id) = true /\ in_sweep (pattern 3 255 id) = true /\
  in_sweep (pattern 4 255 id) = true /\ in_sweep (pattern 5 127 id) = true /\
  in_sweep (pattern 6 63 id) = true /\ in_sweep (pattern 7 31 id) = true.
Proof.
  intros H.
  assert (In id [0; 1; 2; 3; 4; 5; 6; 7; 8; 9; 10; 11; 12; 13; 14; 15]) as Hin.
  { cbn. lia. }
  cbn [In] in Hin.
  repeat (destruct Hin as [<-|Hin]; [vm_compute; repeat split|]).
  destruct Hin.
Qed.

Lemma sweep_body_ok (v : vars) id :
  0 <= id < 16 -> tests_ok tl 6 (ocaccel_card v) (sweep_body tl v id).
Proof.
  intros Hid. destruct (in_sweep_patterns id Hid) as (P2 & P3 & P4 & P5 & P6 & P7).
  unfold sweep_body, short_ne_1.
  assert (forall num, tests_ok tl 6 (ocaccel_card v)
            (test_perf_test tl v num 2 255 id ;;
             test_perf_test tl v num 3 255 id ;;
             test_perf_test tl v num 4 255 id ;;
             test_perf_test tl v num 5 127 id ;;
             test_perf_test tl v num 6 63 id ;;
             test_perf_test tl v num 7 31 id)) as Hsix.
  { intros num.
    apply (tests_ok_bind 1 5); [apply tests_ok_test, P2|].
    apply (tests_ok_bind 1 4); [apply tests_ok_test, P3|].
    apply (tests_ok_bind 1 3); [apply tests_ok_test, P4|].
    apply (tests_ok_bind 1 2); [apply tests_ok_test, P5|].
    apply (tests_ok_bind 1 1); [apply tests_ok_test, P6|].
    apply tests_ok_test, P7. }
  destruct (short v) as [z|].
  - rewrite sbind_sret. destruct (negb (z =? 1)).
    + apply (tests_ok_bind 0 6); [apply tests_ok_echo; reflexivity | apply Hsix].
    + apply (tests_ok_bind 0 6); [apply tests_ok_echo; reflexivity | apply Hsix].
  - rewrite sbind_assoc. apply (tests_ok_bind 0 6); [apply tests_ok_echo; reflexivity|].
    rewrite sbind_sret.
    apply (tests_ok_bind 0 6); [apply tests_ok_echo; reflexivity | apply Hsix].
Qed.

Lemma sweep_ok (v : vars) : forall fuel id,
  0 <= id <= 16 -> (Z.to_nat (16 - id) <= fuel)%nat ->
  tests_ok tl (6 * Z.to_nat (16 - id)) (ocaccel_card v) (sweep fuel tl v id).
Proof.
  induction fuel as [|fuel IH]; intros id Hid Hfuel; cbn [sweep];
    destruct (id <? 16) eqn:E.
  - apply Z.ltb_lt in E. lia.
  - apply Z.ltb_ge in E. replace (Z.to_nat (16 - id)) with 0%nat by lia.
    unfold tests_ok. cbn. repeat split.
  - apply Z.ltb_lt in E. rewrite s64_small by lia.
    replace (6 * Z.to_nat (16 - id))%nat
      with (6 + 6 * Z.to_nat (16 - (id + 1)))%nat by lia.
    apply tests_ok_bind; [apply sweep_body_ok; lia | apply IH; lia].
  - apply Z.ltb_ge in E. replace (Z.to_nat (16 - id)) with 0%nat by lia.
    unfold tests_ok. cbn. repeat split.
Qed.

(** The tests of the script, from the first small burst to the end of the
    sweep. *)
Lemma all_tests_ok (v : vars) fuel :
  (16 <= fuel)%nat ->
  tests_ok tl 98 (ocaccel_card v)
    (test_perf_test tl v 10 7 0 0 ;;
     test_perf_test tl v 10 7 1 0 ;;
     sweep fuel tl v 0).
Proof.
  intros Hfuel.
  apply (tests_ok_bind 1 97); [apply tests_ok_test; reflexivity|].
  apply (tests_ok_bind 1 96); [apply tests_ok_test; reflexivity|].
  apply (sweep_ok v fuel 0); lia.
Qed.

Lemma getopts_loop_cases opts : forall v,
  let m := getopts_loop opts v in
  maint_calls (fst m) = [] /\ perf_calls (fst m) = [] /\
  says_test_ok (fst m) = false /\
  if existsb has_help opts then snd m = inr (Exited 0)
  else snd m = inl (mkVars (card_after opts (ocaccel_card v))
                           (short_after opts (short v))).
Proof.
  induction opts as [|opt rest IH]; intros v; cbn zeta.
  - destruct v. cbn. repeat split.
  - cbn [getopts_loop existsb card_after short_after fold_left].
    destruct opt; cbn [getopts_case has_help orb]; rewrite ?sbind_sret;
      try exact (IH _).
    + cbn. repeat split.
    + specialize (IH v). cbv zeta in IH. cbn [sbind echo run_cmd sret app].
      destruct (getopts_loop rest v) as [t r]. exact IH.
Qed.

Lemma sbind_tests (a b c k : script unit) :
  (a ;; b ;; c ;; k) = ((a ;; b ;; c) ;; k).
Proof.
  destruct a as [ta [[]|ea]]; [|reflexivity].
  destruct b as [tb [[]|eb]]; [|reflexivity].
  destruct c as [tc [[]|ec]]; [|reflexivity].
  destruct k as [tk rk]. cbn. rewrite <- !app_assoc. reflexivity.
Qed.

(** The tests and what follows them: either all 98 pass and the script
    announces it and exits with 0, or it exits with 1 at the first failure. *)
Lemma tests_and_end (v : vars) fuel :
  (16 <= fuel)%nat ->
  let m := (test_perf_test tl v 10 7 0 0 ;;
            test_perf_test tl v 10 7 1 0 ;;
            sweep fuel tl v 0 ;;
            echo stdout L_ok ;;
            run_cmd Rm_outputs ;;
            echo stdout L_test_ok ;;
            sexit 0) in
  let t := fst m in
  maint_calls t = [] /\
  forallb (fun c => in_sweep (call_pattern c)) (perf_calls t) = true /\
  forallb (fun c => on_card (ocaccel_card v) c && answered tl c) (perf_calls t)
    = true /\
  ((forallb passed (perf_calls t) = true /\ length (perf_calls t) = 98%nat /\
    says_test_ok t = true /\ snd m = inr (Exited 0)) \/
   (snd m = inr (Exited 1) /\ says_test_ok t = false /\
    exists l x, perf_calls t = l ++ [x] /\
                forallb passed l = true /\ passed x = false)).
Proof.
  intros Hfuel. cbv zeta. rewrite sbind_tests.
  pose proof (all_tests_ok v fuel Hfuel) as T. unfold tests_ok in T.
  destruct (test_perf_test tl v 10 7 0 0;; test_perf_test tl v 10 7 1 0;;
            sweep fuel tl v 0) as [tt' [[]|e]];
    cbn [fst snd] in T; destruct T as (T1 & T2 & T3 & T4 & T5).
  - destruct T5 as [T5 T6]. cbn [fst snd sbind echo run_cmd sexit app].
    rewrite maint_calls_app, perf_calls_app, says_test_ok_app, !forallb_app.
    rewrite T1, T2, T3, T4, T5. cbn. rewrite app_nil_r, T6. auto 10.
  - destruct T5 as (-> & l & x & T5 & T6 & T7). cbn [fst snd sbind].
    rewrite T1, T2, T3, T4. repeat split. right. repeat split.
    exists l, x. auto.
Qed.

(** The script after its options are read. *)
Lemma after_getopts (v : vars) fuel :
  let m := (run_cmd (Ocaccel_maint (ocaccel_card v)
                       (maint_status tl (ocaccel_card v))) ;;
            (if negb (maint_status tl (ocaccel_card v) =? 0)
             then sexit 1 else sret tt) ;;
            run_cmd Rm_log ;;
            run_cmd Touch_log ;;
            test_perf_test tl v 10 7 0 0 ;;
            test_perf_test tl v 10 7 1 0 ;;
            sweep fuel tl v 0 ;;
            echo stdout L_ok ;;
            run_cmd Rm_outputs ;;
            echo stdout L_test_ok ;;
            sexit 0) in
  let t := fst m in
  if negb (maint_status tl (ocaccel_card v) =? 0)
  then maint_calls t = [(ocaccel_card v, maint_status tl (ocaccel_card v))] /\
       snd m = inr (Exited 1) /\ perf_calls t = [] /\ says_test_ok t = false
  else
    (16 <= fuel)%nat ->
    maint_calls t = [(ocaccel_card v, maint_status tl (ocaccel_card v))] /\
    forallb (fun c => in_sweep (call_pattern c)) (perf_calls t) = true /\
    forallb (fun c => on_card (ocaccel_card v) c && answered tl c) (perf_calls t)
      = true /\
    ((forallb passed (perf_calls t) = true /\ length (perf_calls t) = 98%nat /\
      says_test_ok t = true /\ snd m = inr (Exited 0)) \/
     (snd m = inr (Exited 1) /\ says_test_ok t = false /\
      exists l x, perf_calls t = l ++ [x] /\
                  forallb passed l = true /\ passed x = false)).
Proof.
  pose proof (tests_and_end v fuel) as T. cbv zeta in T |- *.
  destruct (test_perf_test tl v 10 7 0 0;; test_perf_test tl v 10 7 1 0;;
            sweep fuel tl v 0;; echo stdout L_ok;; run_cmd Rm_outputs;;
            echo stdout L_test_ok;; sexit 0) as [tx rx].
  cbn [fst snd] in T.
  destruct (negb (maint_status tl (ocaccel_card v) =? 0)).
  - cbn. auto.
  - cbn [sbind run_cmd sret app fst snd maint_calls perf_calls says_test_ok
         flat_map existsb orb].
    fold (maint_calls tx) (perf_calls tx) (says_test_ok tx).
    intros Hfuel. destruct (T Hfuel) as (T1 & T2 & T3 & T4).
    rewrite T1. auto.
Qed.

(** Every run of the script, by what stops it. *)
Lemma script_cases fuel opts :
  let r := run_script fuel tl opts in
  let t := fst r in
  let c := chosen_card opts in
  if existsb has_help opts
  then snd r = Exited 0 /\ maint_calls t = [] /\ perf_calls t = [] /\
       says_test_ok t = false
  else if negb (maint_status tl c =? 0)
  then maint_calls t = [(c, maint_status tl c)] /\
       snd r = Exited 1 /\ perf_calls t = [] /\ says_test_ok t = false
  else
    (16 <= fuel)%nat ->
    maint_calls t = [(c, maint_status tl c)] /\
    forallb (fun x => in_sweep (call_pattern x)) (perf_calls t) = true /\
    forallb (fun x => on_card c x && answered tl x) (perf_calls t) = true /\
    ((forallb passed (perf_calls t) = true /\ length (perf_calls t) = 98%nat /\
      says_test_ok t = true /\ snd r = Exited 0) \/
     (snd r = Exited 1 /\ says_test_ok t = false /\
      exists l x, perf_calls t = l ++ [x] /\
                  forallb passed l = true /\ passed x = false)).
Proof.
  cbv zeta. unfold run_script, script_body.
  pose proof (getopts_loop_cases opts defaults) as G. cbv zeta in G.
  destruct (getopts_loop opts defaults) as [tg rg]. cbn [fst snd] in G.
  destruct G as (G1 & G2 & G3 & G4).
  destruct (existsb has_help opts); subst rg.
  - cbn. auto.
  - fold (chosen_card opts) (chosen_short opts).
    set (v := mkVars (chosen_card opts) (chosen_short opts)).
    pose proof (after_getopts v fuel) as A. cbv zeta in A.
    change (ocaccel_card v) with (chosen_card opts) in A.
    match goal with
    | |- context [sbind (tg, inl v) ?k] => set (K := k)
    end.
    cbn [sbind echo run_cmd app].
    subst K. cbv beta. change (ocaccel_card v) with (chosen_card opts).
    match type of A with
    | context [maint_calls (fst ?m)] => destruct m as [ta ra]
    end.
    cbn [fst snd] in A.
    assert (maint_calls (Echo stdout L_starting :: Echo stdout L_ocaccel_root ::
                         Echo stdout L_action_root :: tg ++ ta)
            = maint_calls ta) as E1.
    { cbn. fold (maint_calls (tg ++ ta)). rewrite maint_calls_app, G1. reflexivity. }
    assert (perf_calls (Echo stdout L_starting :: Echo stdout L_ocaccel_root ::
                        Echo stdout L_action_root :: tg ++ ta)
            = perf_calls ta) as E2.
    { cbn. fold (perf_calls (tg ++ ta)). rewrite perf_calls_app, G2. reflexivity. }
    assert (says_test_ok (Echo stdout L_starting :: Echo stdout L_ocaccel_root ::
                          Echo stdout L_action_root :: tg ++ ta)
            = says_test_ok ta) as E3.
    { cbn. fold (says_test_ok (tg ++ ta)). rewrite says_test_ok_app, G3. reflexivity. }
    destruct (negb (maint_status tl (chosen_card opts) =? 0)).
    + destruct A as (A1 & -> & A2 & A3). cbn [fst snd]. rewrite E1, E2, E3. auto.
    + intros Hfuel. destruct (A Hfuel) as (A1 & A2 & A3 & A4).
      destruct A4 as [(A4 & A5 & A6 & ->)|(-> & A5)]; cbn [fst snd];
        rewrite E1, E2, E3; auto 10.
Qed.

Lemma snd_run_script_help fuel opts :
  existsb has_help opts = true ->
  run_script fuel tl opts =
    (Echo stdout L_starting :: Echo stdout L_ocaccel_root ::
     Echo stdout L_action_root :: fst (getopts_loop opts defaults), Exited 0).
Proof.
  intros Hh. unfold run_script, script_body.
  pose proof (getopts_loop_cases opts defaults) as G. cbv zeta in G.
  destruct (getopts_loop opts defaults) as [tg rg]. cbn [fst snd] in G.
  destruct G as (_ & _ & _ & G). rewrite Hh in G. subst rg. reflexivity.
Qed.

(** X15.  With [-h] among the options the script prints its usage and
    exits with 0 at once: neither [ocaccel_maint] nor [hdl_perf_test] is
    run, whatever options come before or after. *)
Theorem X15_script_help_runs_nothing fuel opts :
  existsb has_help opts = true ->
  snd (run_script fuel tl opts) = Exited 0 /\
  In (Echo stdout L_usage) (fst (run_script fuel tl opts)) /\
  maint_calls (fst (run_script fuel tl opts)) = [] /\
  perf_calls (fst (run_script fuel tl opts)) = [].
Proof.
  intros Hh. pose proof (script_cases fuel opts) as C. cbv zeta in C.
  rewrite Hh in C. destruct C as (C1 & C2 & C3 & _).
  repeat split; try assumption.
  rewrite (snd_run_script_help fuel opts Hh). cbn [fst]. do 3 right.
  clear - Hh. generalize defaults.
  induction opts as [|opt rest IH]; [discriminate|]. intros v.
  cbn [getopts_loop]. destruct opt; cbn [getopts_case has_help existsb orb] in *;
    rewrite ?sbind_sret; try (apply IH; exact Hh).
  - left. reflexivity.
  - cbn [sbind echo run_cmd sret app]. specialize (IH Hh v).
    destruct (getopts_loop rest v) as [t r]. right. exact IH.
Qed.

(** X16.  When [ocaccel_maint] fails on the chosen card the script exits
    with 1 before any test: [hdl_perf_test] is never run. *)
Theorem X16_script_maint_failure fuel opts :
  existsb has_help opts = false ->
  maint_status tl (chosen_card opts) <> 0 ->
  snd (run_script fuel tl opts) = Exited 1 /\
  maint_calls (fst (run_script fuel tl opts)) =
    [(chosen_card opts, maint_status tl (chosen_card opts))] /\
  perf_calls (fst (run_script fuel tl opts)) = [] /\
  says_test_ok (fst (run_script fuel tl opts)) = false.
Proof.
  intros Hh Hm. pose proof (script_cases fuel opts) as C. cbv zeta in C.
  rewrite Hh in C. apply Z.eqb_neq in Hm. rewrite Hm in C. cbn [negb] in C.
  destruct C as (C1 & C2 & C3 & C4). auto.
Qed.

(** X17.  The loop of the script ends after 16 rounds, and the script
    exits with 0 or 1.  Every [hdl_perf_test] it runs is on the card chosen
    by the last [-C], carries the status the tool answered, and encodes in
    its pattern a size from 2 to 7, an identifier from 0 to 15 and a burst
    of at most 4096 bytes. *)
Theorem X17_script_stays_in_sweep fuel opts :
  (16 <= fuel)%nat ->
  (snd (run_script fuel tl opts) = Exited 0 \/
   snd (run_script fuel tl opts) = Exited 1) /\
  forall x, In x (perf_calls (fst (run_script fuel tl opts))) ->
    in_sweep (call_pattern x) = true /\
    call_card x = chosen_card opts /\
    call_status x =
      perf_status tl (chosen_card opts) (call_num x) (call_pattern x).
Proof.
  intros Hfuel. pose proof (script_cases fuel opts) as C. cbv zeta in C.
  destruct (existsb has_help opts).
  - destruct C as (C1 & _ & C3 & _). rewrite C3. split; [auto|]. intros x [].
  - destruct (negb (maint_status tl (chosen_card opts) =? 0)).
    + destruct C as (_ & C1 & C3 & _). rewrite C3. split; [auto|]. intros x [].
    + destruct (C Hfuel) as (_ & C2 & C3 & C4). split.
      * destruct C4 as [(_ & _ & _ & C4)|(C4 & _)]; auto.
      * intros x Hx. rewrite forallb_forall in C2, C3.
        specialize (C2 x Hx). specialize (C3 x Hx).
        apply andb_true_iff in C3 as [C3 C5].
        apply String.eqb_eq in C3. apply Z.eqb_eq in C5.
        unfold on_card in C3. rewrite <- C3 at 2. auto.
Qed.

(** X18.  [Test OK] is printed only after [ocaccel_maint] succeeded and all
    98 tests were run and passed; the script then exits with 0. *)
Theorem X18_script_test_ok_is_earned fuel opts :
  (16 <= fuel)%nat ->
  says_test_ok (fst (run_script fuel tl opts)) = true ->
  snd (run_script fuel tl opts) = Exited 0 /\
  maint_calls (fst (run_script fuel tl opts)) = [(chosen_card opts, 0)] /\
  length (perf_calls (fst (run_script fuel tl opts))) = 98%nat /\
  forallb passed (perf_calls (fst (run_script fuel tl opts))) = true.
Proof.
  intros Hfuel. pose proof (script_cases fuel opts) as C. cbv zeta in C.
  destruct (existsb has_help opts).
  - destruct C as (_ & _ & _ & C). congruence.
  - destruct (maint_status tl (chosen_card opts) =? 0) eqn:Em; cbn [negb] in C.
    + apply Z.eqb_eq in Em. rewrite Em in C.
      destruct (C Hfuel) as (C1 & _ & _ & [(C4 & C5 & C6 & C7)|(_ & C4 & _)]);
        [auto | congruence].
    + destruct C as (_ & _ & _ & C). congruence.
Qed.

(** X19.  When no [-h] is given, [ocaccel_maint] succeeds and
    [hdl_perf_test] succeeds on the chosen card whatever it is asked, the
    script runs its 98 tests, prints [Test OK] and exits with 0. *)
Theorem X19_script_all_pass fuel opts :
  (16 <= fuel)%nat ->
  existsb has_help opts = false ->
  maint_status tl (chosen_card opts) = 0 ->
  (forall num pat, perf_status tl (chosen_card opts) num pat = 0) ->
  snd (run_script fuel tl opts) = Exited 0 /\
  says_test_ok (fst (run_script fuel tl opts)) = true /\
  length (perf_calls (fst (run_script fuel tl opts))) = 98%nat.
Proof.
  intros Hfuel Hh Hm Hp. pose proof (script_cases fuel opts) as C. cbv zeta in C.
  rewrite Hh, Hm in C. cbn [Z.eqb negb] in C.
  destruct (C Hfuel) as (_ & _ & C3 & [(_ & C5 & C6 & C7)|(_ & _ & l & x & E & _ & Hx)]);
    [auto|].
  exfalso. rewrite forallb_forall in C3.
  assert (In x (perf_calls (fst (run_script fuel tl opts)))) as Hin.
  { rewrite E. apply in_or_app. right. left. reflexivity. }
  specialize (C3 x Hin). apply andb_true_iff in C3 as [C3 C4].
  apply String.eqb_eq in C3. apply Z.eqb_eq in C4. unfold on_card in C3.
  rewrite C3, Hp in C4. unfold passed in Hx. rewrite C4 in Hx. discriminate Hx.
Qed.

(** X20.  The script stops at the first test that fails: the failing call
    is the last [hdl_perf_test] of the run, every call before it passed,
    [Test OK] is not printed and the exit status is 1. *)
Theorem X20_script_stops_at_first_failure fuel opts x :
  (16 <= fuel)%nat ->
  In x (perf_calls (fst (run_script fuel tl opts))) -> passed x = false ->
  snd (run_script fuel tl opts) = Exited 1 /\
  says_test_ok (fst (run_script fuel tl opts)) = false /\
  exists l, perf_calls (fst (run_script fuel tl opts)) = l ++ [x] /\
            forallb passed l = true.
Proof.
  intros Hfuel. pose proof (script_cases fuel opts) as C. cbv zeta in C.
  destruct (existsb has_help opts).
  - destruct C as (_ & _ & -> & _). intros [].
  - destruct (negb (maint_status tl (chosen_card opts) =? 0)).
    + destruct C as (_ & _ & -> & _). intros [].
    + destruct (C Hfuel) as (_ & _ & _ & [(C4 & _)|(C4 & C5 & l & y & E & Hl & Hy)]).
      * intros Hx Hf. rewrite forallb_forall in C4. rewrite (C4 x Hx) in Hf.
        discriminate Hf.
      * rewrite E. intros Hx Hf. apply in_app_or in Hx as [Hx|[<-|[]]].
        -- rewrite forallb_forall in Hl. rewrite (Hl x Hx) in Hf. discriminate Hf.
        -- repeat split; try assumption. exists l. auto.
Qed.

End ScriptRuns.

(** * The extra properties on concrete runs *)

(** [ocaccel_helloworld -i in -o out -N]: the action is attached with the
    flag 0 and no interrupt is assigned. *)
Lemma X2_witness :
  existsb is_Opt_N (options cl_polling) = true /\
  In (AttachAction 5 0 7) (trace_of run_polling) /\
  (forall a, ~ In (AssignIrq a) (trace_of run_polling)) /\
  (forall c irq p, In (AttachAction c irq p) (trace_of run_polling) -> irq = 0).
Proof.
  assert (existsb is_Opt_N (options cl_polling) = true) as HN by reflexivity.
  split; [exact HN|]. split; [vm_compute; find_event|].
  exact (@X2_polling_mode sample_headers uppercase_world cl_polling HN).
Defined.

(** The plain run frees the output buffer, then the input buffer. *)
Lemma X3_witness :
  outcome_of run_plain = Exit 0 /\
  mallocs (trace_of run_plain) = [4096; 8192] /\
  List.filter nonnull (frees (trace_of run_plain)) =
    rev (List.filter nonnull (mallocs (trace_of run_plain))).
Proof.
  assert (outcome_of run_plain = Exit 0) as He by (vm_compute; reflexivity).
  split; [exact He|]. split; [vm_compute; reflexivity|].
  exact (proj1 (@X3_buffers_freed_once sample_headers uppercase_world cl_in_out 0 He)).
Defined.

(** When the action cannot be attached, the card is freed and nothing is
    detached. *)
Lemma X4_witness :
  outcome_of run_no_action = Exit 1 /\
  attach_answers (trace_of run_no_action) = [0] /\
  card_frees (trace_of run_no_action) =
    List.filter nonnull (card_answers (trace_of run_no_action)) /\
  detaches (trace_of run_no_action) =
    List.filter nonnull (attach_answers (trace_of run_no_action)).
Proof.
  assert (outcome_of run_no_action = Exit 1) as He by (vm_compute; reflexivity).
  split; [exact He|]. split; [vm_compute; reflexivity|].
  exact (@X4_handles_released_once sample_headers no_action_world cl_in_out 1 He).
Defined.

(** No memory for the input buffer: status 1 and no message from [main]. *)
Lemma X5_witness :
  In (OcaccelMalloc 3 0) (trace_of run_no_memory) /\
  setup_failed (OcaccelMalloc 3 0) = true /\
  card_answers (trace_of run_no_memory) = [] /\
  attach_answers (trace_of run_no_memory) = [] /\
  job_answers (trace_of run_no_memory) = [] /\
  stderr_lines (trace_of run_no_memory) = [] /\
  outcome_of run_no_memory = Exit EXIT_FAILURE.
Proof.
  assert (In (OcaccelMalloc 3 0) (trace_of run_no_memory)) as Hin
    by (vm_compute; find_event).
  assert (setup_failed (OcaccelMalloc 3 0) = true) as Hs by reflexivity.
  split; [exact Hin|]. split; [exact Hs|].
  exact (@X5_setup_failure_stops_before_card sample_headers no_memory_world cl_in_out
           _ Hin Hs).
Defined.

(** The job fails with result 1: the output file is not written. *)
Lemma X7_witness :
  In (7, 1, 0) (job_answers (trace_of run_failed_job)) /\
  1 <> 0 /\
  written (trace_of run_failed_job) = [] /\
  existsb is_memcmp (trace_of run_failed_job) = false.
Proof.
  assert (In (7, 1, 0) (job_answers (trace_of run_failed_job))) as Hin
    by (vm_compute; find_event).
  assert (1 <> 0) as Hne by discriminate.
  split; [exact Hin|]. split; [exact Hne|].
  exact (@X7_failed_job_writes_nothing sample_headers failed_job_world cl_in_out
           7 1 0 Hin Hne).
Defined.

(** The plain run writes [ABC], the three bytes of its size, to [out]. *)
Lemma X8_witness :
  In ("out", [Byte.x41; Byte.x42; Byte.x43]) (written (trace_of run_plain)) /\
  0 <= size (locals_of run_plain) /\
  output (locals_of run_plain) = Some "out" /\
  (exists blk, obuff (locals_of run_plain) = Some blk /\
     [Byte.x41; Byte.x42; Byte.x43] =
     take (Z.to_nat (size (locals_of run_plain))) (bytes blk)) /\
  exists a rt, In (a, 0, rt) (job_answers (trace_of run_plain)).
Proof.
  assert (In ("out", [Byte.x41; Byte.x42; Byte.x43]) (written (trace_of run_plain)))
    as Hin by (vm_compute; find_event).
  assert (0 <= size (locals_of run_plain)) as Hsz by (vm_compute; discriminate).
  split; [exact Hin|]. split; [exact Hsz|].
  destruct (@X8_written_file sample_headers uppercase_world cl_in_out _ _ Hin)
    as (Ho & Hd & Hj).
  split; [exact Ho|]. split; [exact (Hd Hsz) | exact Hj].
Defined.

(** The action reports the return code 260: the output file is written all
    the same. *)
Lemma X9_witness :
  In (7, 0, 260) (job_answers (trace_of run_bad_retc)) /\
  output (locals_of run_bad_retc) = Some "out" /\
  outcome_of run_bad_retc = Exit 1 /\
  exists d, written (trace_of run_bad_retc) = [("out", d)].
Proof.
  assert (In (7, 0, 260) (job_answers (trace_of run_bad_retc))) as Hin
    by (vm_compute; find_event).
  assert (output (locals_of run_bad_retc) = Some "out") as Ho
    by (vm_compute; reflexivity).
  split; [exact Hin|]. split; [exact Ho|]. split; [vm_compute; reflexivity|].
  exact (@X9_output_written_before_retc sample_headers bad_retc_world cl_in_out
           7 260 "out" Hin Ho).
Defined.

(** The run that finds the output changed exits with EX_ERR_VERIFY. *)
Lemma X10_witness :
  outcome_of run_uppercase = Exit 3 /\
  (3 = EXIT_SUCCESS \/ 3 = EXIT_FAILURE \/ 3 = @EX_ERR_VERIFY sample_headers).
Proof.
  assert (outcome_of run_uppercase = Exit 3) as He by (vm_compute; reflexivity).
  split; [exact He|].
  exact (@X10_exit_statuses sample_headers uppercase_world cl_in_out_verify 3 He).
Defined.

(** A job of 32 bytes in a window of 108. *)
Lemma X11_witness :
  @sizeof_helloworld_job sample_headers <= @OCACCEL_JOBSIZE sample_headers /\
  outcome_of run_plain <> Abort.
Proof.
  assert (@sizeof_helloworld_job sample_headers <= @OCACCEL_JOBSIZE sample_headers)
    as Hfit by (cbn; lia).
  split; [exact Hfit|].
  exact (@X11_fitting_job_never_aborts sample_headers uppercase_world cl_in_out Hfit).
Defined.

(** Without [-X] the plain run compares nothing. *)
Lemma X12_witness :
  existsb is_Opt_X (options cl_in_out) = false /\
  outcome_of run_plain <> Fault /\
  existsb is_memcmp (trace_of run_plain) = false /\
  forall st, outcome_of run_plain = Exit st ->
             st = EXIT_SUCCESS \/ st = EXIT_FAILURE.
Proof.
  assert (existsb is_Opt_X (options cl_in_out) = false) as HX by reflexivity.
  split; [exact HX|].
  exact (@X12_no_verify_no_fault sample_headers uppercase_world cl_in_out HX).
Defined.

(** A faithful copy is verified: status 0. *)
Lemma X13_witness :
  verify (locals_of run_copy) <> 0 /\
  input (locals_of run_copy) = Some "in" /\
  output (locals_of run_copy) = Some "out" /\
  file_size copy_world "in" < 2 ^ 63 /\
  In (Fprintf stdout Msg_SUCCESS) (trace_of run_copy) /\
  verified copy_world "in" /\
  outcome_of run_copy = Exit EXIT_SUCCESS.
Proof.
  assert (verify (locals_of run_copy) <> 0) as Hv by (vm_compute; discriminate).
  assert (input (locals_of run_copy) = Some "in") as Hi by (vm_compute; reflexivity).
  assert (output (locals_of run_copy) = Some "out") as Ho by (vm_compute; reflexivity).
  assert (file_size copy_world "in" < 2 ^ 63) as Hlt by (vm_compute; reflexivity).
  assert (In (Fprintf stdout Msg_SUCCESS) (trace_of run_copy)) as Hs
    by (vm_compute; find_event).
  assert (verified copy_world "in") as Hok by (split; vm_compute; reflexivity).
  split; [exact Hv|]. split; [exact Hi|]. split; [exact Ho|]. split; [exact Hlt|].
  split; [exact Hs|]. split; [exact Hok|].
  destruct (proj2 (@X13_verification_verdict sample_headers copy_world
                     cl_in_out_verify "in" "out" Hv Hi Ho Hlt) Hs)
    as (_ & _ & _ & Hyes & _).
  exact (Hyes Hok).
Defined.

(** The diagnostic of the overrunning action points at a real store. *)
Lemma X14_witness :
  verify (locals_of run_overrun) <> 0 /\
  input (locals_of run_overrun) = Some "in" /\
  output (locals_of run_overrun) = Some "out" /\
  file_size overrun_world "in" < 2 ^ 63 /\
  In (Fprintf stderr Err_trailing) (trace_of run_overrun) /\
  exists i b, In (i, b) (job_stores overrun_world) /\
              size (locals_of run_overrun) <= Z.of_nat i
                < size (locals_of run_overrun) + 1024 /\
              b <> Byte.x00.
Proof.
  assert (verify (locals_of run_overrun) <> 0) as Hv by (vm_compute; discriminate).
  assert (input (locals_of run_overrun) = Some "in") as Hi by (vm_compute; reflexivity).
  assert (output (locals_of run_overrun) = Some "out") as Ho
    by (vm_compute; reflexivity).
  assert (file_size overrun_world "in" < 2 ^ 63) as Hlt by (vm_compute; reflexivity).
  assert (In (Fprintf stderr Err_trailing) (trace_of run_overrun)) as He
    by (vm_compute; find_event).
  split; [exact Hv|]. split; [exact Hi|]. split; [exact Ho|]. split; [exact Hlt|].
  split; [exact He|].
  exact (@X14_trailing_diagnostic_is_an_overrun sample_headers overrun_world
           cl_in_out_verify "in" "out" Hv Hi Ho Hlt He).
Defined.

Section ScriptWitnesses.
Import Script.

(** [test.sh -C 1 -h]: the usage and nothing else. *)
Lemma X15_witness :
  existsb has_help [Got_C "1"; Got_h] = true /\
  snd (run_script 16 good_tools [Got_C "1"; Got_h]) = Exited 0 /\
  In (Echo stdout L_usage) (fst (run_script 16 good_tools [Got_C "1"; Got_h])) /\
  maint_calls (fst (run_script 16 good_tools [Got_C "1"; Got_h])) = [] /\
  perf_calls (fst (run_script 16 good_tools [Got_C "1"; Got_h])) = [].
Proof.
  assert (existsb has_help [Got_C "1"; Got_h] = true) as Hh by reflexivity.
  split; [exact Hh|].
  exact (X15_script_help_runs_nothing good_tools 16 [Got_C "1"; Got_h] Hh).
Defined.

(** [ocaccel_maint] fails on card 2. *)
Lemma X16_witness :
  existsb has_help [Got_C "2"] = false /\
  maint_status no_maint_tools (chosen_card [Got_C "2"]) <> 0 /\
  snd (run_script 16 no_maint_tools [Got_C "2"]) = Exited 1 /\
  maint_calls (fst (run_script 16 no_maint_tools [Got_C "2"])) =
    [(chosen_card [Got_C "2"], maint_status no_maint_tools (chosen_card [Got_C "2"]))] /\
  perf_calls (fst (run_script 16 no_maint_tools [Got_C "2"])) = [] /\
  says_test_ok (fst (run_script 16 no_maint_tools [Got_C "2"])) = false.
Proof.
  assert (existsb has_help [Got_C "2"] = false) as Hh by reflexivity.
  assert (maint_status no_maint_tools (chosen_card [Got_C "2"]) <> 0) as Hm
    by discriminate.
  split; [exact Hh|]. split; [exact Hm|].
  exact (X16_script_maint_failure no_maint_tools 16 [Got_C "2"] Hh Hm).
Defined.

(** The long test on card 3: sixteen rounds are enough. *)
Lemma X17_witness :
  (16 <= 16)%nat /\
  length (perf_calls (fst (run_script 16 good_tools [Got_C "3"; Got_s (Int 0)])))
    = 98%nat /\
  (snd (run_script 16 good_tools [Got_C "3"; Got_s (Int 0)]) = Exited 0 \/
   snd (run_script 16 good_tools [Got_C "3"; Got_s (Int 0)]) = Exited 1) /\
  forall x,
    In x (perf_calls (fst (run_script 16 good_tools [Got_C "3"; Got_s (Int 0)]))) ->
    in_sweep (call_pattern x) = true /\
    call_card x = chosen_card [Got_C "3"; Got_s (Int 0)] /\
    call_status x =
      perf_status good_tools (chosen_card [Got_C "3"; Got_s (Int 0)])
        (call_num x) (call_pattern x).
Proof.
  assert (16 <= 16)%nat as Hf by (apply le_n).
  split; [exact Hf|]. split; [vm_compute; reflexivity|].
  exact (X17_script_stays_in_sweep good_tools 16 [Got_C "3"; Got_s (Int 0)] Hf).
Defined.

(** The default run on tools that succeed ends with [Test OK]. *)
Lemma X18_witness :
  (16 <= 16)%nat /\
  says_test_ok (fst (run_script 16 good_tools [])) = true /\
  snd (run_script 16 good_tools []) = Exited 0 /\
  maint_calls (fst (run_script 16 good_tools [])) = [(chosen_card [], 0)] /\
  length (perf_calls (fst (run_script 16 good_tools []))) = 98%nat /\
  forallb passed (perf_calls (fst (run_script 16 good_tools []))) = true.
Proof.
  assert (16 <= 16)%nat as Hf by (apply le_n).
  assert (says_test_ok (fst (run_script 16 good_tools [])) = true) as Hok
    by (vm_compute; reflexivity).
  split; [exact Hf|]. split; [exact Hok|].
  exact (X18_script_test_ok_is_earned good_tools 16 [] Hf Hok).
Defined.

(** An unknown option does not keep the tests from passing. *)
Lemma X19_witness :
  (16 <= 16)%nat /\
  existsb has_help [Got_invalid "z"] = false /\
  maint_status good_tools (chosen_card [Got_invalid "z"]) = 0 /\
  (forall num pat,
     perf_status good_tools (chosen_card [Got_invalid "z"]) num pat = 0) /\
  snd (run_script 16 good_tools [Got_invalid "z"]) = Exited 0 /\
  says_test_ok (fst (run_script 16 good_tools [Got_invalid "z"])) = true /\
  length (perf_calls (fst (run_script 16 good_tools [Got_invalid "z"]))) = 98%nat.
Proof.
  assert (16 <= 16)%nat as Hf by (apply le_n).
  assert (existsb has_help [Got_invalid "z"] = false) as Hh by reflexivity.
  assert (maint_status good_tools (chosen_card [Got_invalid "z"]) = 0) as Hm
    by reflexivity.
  assert (forall num pat,
            perf_status good_tools (chosen_card [Got_invalid "z"]) num pat = 0)
    as Hp by (intros; reflexivity).
  split; [exact Hf|]. split; [exact Hh|]. split; [exact Hm|]. split; [exact Hp|].
  exact (X19_script_all_pass good_tools 16 [Got_invalid "z"] Hf Hh Hm Hp).
Defined.

(** The test of size 4 with identifier 3 fails: it is the 23rd and last
    call of the run. *)
Lemma X20_witness :
  (16 <= 16)%nat /\
  In ("0", 5, pattern 4 255 3, 1)
     (perf_calls (fst (run_script 16 (tools_failing_at (pattern 4 255 3)) []))) /\
  passed ("0", 5, pattern 4 255 3, 1) = false /\
  length (perf_calls (fst (run_script 16 (tools_failing_at (pattern 4 255 3)) [])))
    = 23%nat /\
  snd (run_script 16 (tools_failing_at (pattern 4 255 3)) []) = Exited 1 /\
  says_test_ok (fst (run_script 16 (tools_failing_at (pattern 4 255 3)) [])) = false /\
  exists l,
    perf_calls (fst (run_script 16 (tools_failing_at (pattern 4 255 3)) [])) =
      l ++ [("0", 5, pattern 4 255 3, 1)] /\
    forallb passed l = true.
Proof.
  assert (16 <= 16)%nat as Hf by (apply le_n).
  assert (In ("0", 5, pattern 4 255 3, 1)
            (perf_calls (fst (run_script 16 (tools_failing_at (pattern 4 255 3)) []))))
    as Hin by (vm_compute; find_event).
  assert (passed ("0", 5, pattern 4 255 3, 1) = false) as Hx by reflexivity.
  split; [exact Hf|]. split; [exact Hin|]. split; [exact Hx|].
  split; [vm_compute; reflexivity|].
  exact (X20_script_stops_at_first_failure (tools_failing_at (pattern 4 255 3))
           16 [] _ Hf Hin Hx).
Defined.

End ScriptWitnesses.
